(** * A REST API over Users and Courses: the router of [src/routes/index.js]

    The development embeds the Express router, its authentication middleware,
    its validation chains and the two Sequelize models of [src/db/models]
    as executable definitions, and proves properties of the responses, of the
    stored rows and of the persistence traffic of each route. *)

From Stdlib Require Import ZArith String Ascii List Bool Sorted.
From stdpp Require Import base option list gmap strings pretty.

Local Open Scope Z_scope.
Local Open Scope string_scope.

(** ** JavaScript values and strings *)

(** The values a parsed JSON body can hold. A key that is absent from an
    object reads as [undefined]; the embedding writes it [None]. Numbers are
    the integers among the JSON numbers; only the safe ones, which a double
    holds exactly (see [safeInteger]), are taken at their value. In an
    answer, [JNum n] stands for the number JavaScript reads [n] as, [n]
    itself when it is safe. *)
#[warnings="-register-all"]
Inductive JsVal : Type :=
| JNull
| JBool (b : bool)
| JNum (n : Z)
| JStr (s : string)
| JArr (items : list JsVal)
| JObj (fields : list (string * JsVal)).

(** [!!value]. *)
Definition truthy (v : option JsVal) : bool :=
  match v with
  | None => false
  | Some JNull => false
  | Some (JBool b) => b
  | Some (JNum n) => negb (n =? 0)%Z
  | Some (JStr s) => negb (String.eqb s "")
  | Some (JArr _) => true
  | Some (JObj _) => true
  end.

(** [String(n)] on a safe integer, also what a template literal
    interpolates. *)
Definition showNum (n : Z) : string := pretty n.

Fixpoint join (sep : string) (parts : list string) : string :=
  match parts with
  | [] => ""
  | [p] => p
  | p :: rest => p ++ sep ++ join sep rest
  end.

(** The string a value is validated as: a string is itself, [null] is empty,
    an array joins its elements with commas, any other object prints as
    [[object Object]]. *)
Fixpoint jsString (v : JsVal) : string :=
  match v with
  | JNull => ""
  | JBool true => "true"
  | JBool false => "false"
  | JNum n => showNum n
  | JStr s => s
  | JArr items => join "," (map jsString items)
  | JObj _ => "[object Object]"
  end.

Definition toString (v : option JsVal) : string :=
  match v with
  | None => ""
  | Some w => jsString w
  end.

(** *** [String.prototype.trim]

    Strings are sequences of UTF-8 bytes. [trim] removes the ECMAScript
    white space and line terminators from both ends: the ASCII ones
    (U+0009..U+000D, U+0020) and U+00A0, U+1680, U+2000..U+200A, U+2028,
    U+2029, U+202F, U+205F, U+3000 and U+FEFF in their UTF-8 encodings. *)
Module Trim.

Definition bytes (s : string) : list N :=
  map N_of_ascii (list_ascii_of_string s).

Definition unbytes (l : list N) : string :=
  string_of_list_ascii (map ascii_of_N l).

Definition asciiSpace (b : N) : bool :=
  ((9 <=? b) && (b <=? 13) || (b =? 32))%N.

(** Third byte of the white space encoded as [E2 80 xx]. *)
Definition generalPunctuationSpace (b : N) : bool :=
  ((128 <=? b) && (b <=? 138) || (b =? 168) || (b =? 169) || (b =? 175))%N.

Fixpoint dropStart (l : list N) : list N :=
  match l with
  | [] => []
  | b :: r =>
      if asciiSpace b then dropStart r else
      match r with
      | c :: r2 =>
          if ((b =? 194) && (c =? 160))%N then dropStart r2 else
          match r2 with
          | d :: r3 =>
              if ((b =? 225) && (c =? 154) && (d =? 128))%N
                 || ((b =? 226) && (c =? 128))%N && generalPunctuationSpace d
                 || ((b =? 226) && (c =? 129) && (d =? 159))%N
                 || ((b =? 227) && (c =? 128) && (d =? 128))%N
                 || ((b =? 239) && (c =? 187) && (d =? 191))%N
              then dropStart r3 else l
          | [] => l
          end
      | [] => l
      end
  end.

(** The same on the reversed byte sequence: the last byte comes first. *)
Fixpoint dropEndRev (l : list N) : list N :=
  match l with
  | [] => []
  | d :: r =>
      if asciiSpace d then dropEndRev r else
      match r with
      | c :: r2 =>
          if ((c =? 194) && (d =? 160))%N then dropEndRev r2 else
          match r2 with
          | b :: r3 =>
              if ((b =? 225) && (c =? 154) && (d =? 128))%N
                 || ((b =? 226) && (c =? 128))%N && generalPunctuationSpace d
                 || ((b =? 226) && (c =? 129) && (d =? 159))%N
                 || ((b =? 227) && (c =? 128) && (d =? 128))%N
                 || ((b =? 239) && (c =? 187) && (d =? 191))%N
              then dropEndRev r3 else l
          | [] => l
          end
      | [] => l
      end
  end.

Definition trim (s : string) : string :=
  unbytes (rev (dropEndRev (rev (dropStart (bytes s))))).

End Trim.

Definition trim : string -> string := Trim.trim.

(** The double quote, for the messages that quote a field name. *)
Definition dq : string := String "034"%char "".
Definition quoted (s : string) : string := dq ++ s ++ dq.

(** Whether a string holds U+0000. Sequelize writes the value of a
    [where] into the text of the SELECT; SQLite refuses a statement with
    that character in it. *)
Definition hasNul (s : string) : bool :=
  existsb (fun a => (N_of_ascii a =? 0)%N) (list_ascii_of_string s).

(** A byte of a string that does not hold U+0000. *)
Definition textByte (b : N) : Prop := (b <> 0 /\ b < 256)%N.

(** [Number.isSafeInteger]: the integers a JSON number holds exactly. *)
Definition safeInteger (n : Z) : bool :=
  (- (2 ^ 53 - 1) <=? n)%Z && (n <=? 2 ^ 53 - 1)%Z.

(** The keys an [INTEGER PRIMARY KEY] can hold. *)
Definition keyInRange (k : Z) : bool :=
  (- 2 ^ 63 <=? k)%Z && (k <=? 2 ^ 63 - 1)%Z.

(** ** Persistence layer: the models of [src/db/models] *)

(** A row of [Users]: [src/db/models/user.js]. Dates are a number of
    milliseconds. *)
Module Users.
Record row := {
  id : Z;
  firstName : string;
  lastName : string;
  emailAddress : string;
  password : string;
  createdAt : Z;
  updatedAt : Z
}.
End Users.

(** A row of [Courses]: [src/db/models/course.js]. [userId] is the foreign
    key of the [belongsTo] association, declared [allowNull: false], which
    the spec has as required; [estimatedTime] and [materialsNeeded] are
    nullable. *)
Module Courses.
Record row := {
  id : Z;
  userId : Z;
  title : string;
  description : string;
  estimatedTime : option string;
  materialsNeeded : option string;
  createdAt : Z;
  updatedAt : Z
}.
End Courses.

(** The database: the two tables in insertion order, and for each the
    largest key its [autoIncrement] primary key has handed out. *)
Record Store := {
  users : list Users.row;
  courses : list Courses.row;
  userSeq : Z;
  courseSeq : Z
}.

(** A SELECT with no ORDER BY scans a table in the order of the keys,
    whatever the order in which the rows were stored. *)
Section Scan.
Context {A : Type} (key : A -> Z).

(** A row put in its place among rows that are in the order of their
    keys. *)
Fixpoint place (r : A) (sorted : list A) : list A :=
  match sorted with
  | [] => [r]
  | x :: rest =>
      if (key r <=? key x)%Z then r :: x :: rest
      else x :: place r rest
  end.

(** The rows of a table in the order of their keys. *)
Definition byKey (table : list A) : list A :=
  fold_right place [] table.

End Scan.

Inductive Table := TUsers | TCourses.

(** What a request does besides answering: a line on the console, or a
    statement sent to the database. *)
Inductive Event :=
| Warn (message : string)
| SelectFrom (t : Table)
| InsertInto (t : Table)
| UpdateIn (t : Table)
| DeleteFrom (t : Table).

Definition isQuery (e : Event) : bool :=
  match e with Warn _ => false | _ => true end.

Definition isRead (e : Event) : bool :=
  match e with SelectFrom _ => true | _ => false end.

Record World := {
  store : Store;
  events : list Event
}.

(** What is known when the process starts: [started] is the value of the
    [new Date()] the two models give as [defaultValue] of their timestamps,
    evaluated once when the models are defined. [salt] is the salt bcryptjs
    draws for the request at hand. *)
Record Env := {
  started : Z;
  salt : string
}.

(** The exceptions the router can meet. *)
Inductive Exn :=
| TypeError
| IllegalArguments
| SequelizeValidationError
| SequelizeUniqueConstraintError
| SequelizeForeignKeyConstraintError
| SequelizeDatabaseError.

(** ** The libraries the router calls

    Their behaviour is outside the repository; the embedding takes it as an
    interface. [isEmail] is validator.js's test, [hashSync] and [compareSync]
    are bcryptjs's (the salt first), [castInteger], [castString] and
    [castDate] say how the ORM and the database store a JSON value whose type
    is not the column's ([None]: the value is rejected), [keyOfParam] reads a
    path parameter as a primary key, [toISOString] prints a date and
    [foreignKeys] says whether the database enforces the foreign key. Two
    facts about them are part of the interface: no character class of
    validator.js admits U+0000 in an address, and a parameter that holds it
    reads as no key. *)
Class Externals := {
  isEmail : string -> bool;
  hashSync : string -> string -> string;
  compareSync : string -> string -> bool;
  castInteger : JsVal -> option Z;
  castString : JsVal -> option string;
  castDate : JsVal -> option Z;
  keyOfParam : string -> option Z;
  toISOString : Z -> string;
  foreignKeys : bool;
  isEmail_text : forall s, isEmail s = true -> hasNul s = false;
  keyOfParam_text : forall s k, keyOfParam s = Some k -> hasNul s = false
}.

(** ** Effects: a state and exception monad over the world *)

Inductive Outcome (A : Type) :=
| Return (a : A)
| Throw (e : Exn).
Arguments Return {A} a.
Arguments Throw {A} e.

Definition M (A : Type) : Type := World -> Outcome A * World.

Definition ret {A} (a : A) : M A := fun w => (Return a, w).

Definition bind {A B} (c : M A) (k : A -> M B) : M B :=
  fun w =>
    match c w with
    | (Return a, w') => k a w'
    | (Throw e, w') => (Throw e, w')
    end.

Definition throw {A} (e : Exn) : M A := fun w => (Throw e, w).

Definition emit (e : Event) : M unit :=
  fun w => (Return tt, {| store := store w; events := events w ++ [e] |}).

Definition getStore : M Store := fun w => (Return (store w), w).

Definition putStore (s : Store) : M unit :=
  fun w => (Return tt, {| store := s; events := events w |}).

Definition orThrow {A} (e : Exn) (o : option A) : M A :=
  match o with
  | Some a => ret a
  | None => throw e
  end.

Declare Scope m_scope.
Delimit Scope m_scope with M.
Notation "x <- c ;; k" := (bind c (fun x => k))
  (at level 100, c at next level, right associativity) : m_scope.
Notation "c ;; k" := (bind c (fun _ => k))
  (at level 100, right associativity) : m_scope.
Local Open Scope m_scope.

(** [console.warn]. *)
Definition warn (message : string) : M unit := emit (Warn message).

(** ** The ORM: what a Sequelize model does with the values it is given *)

Section Columns.
Context `{E : Externals}.

(** A value for an [INTEGER] column; [null] is not one. A safe integer is
    stored as it is; what the database makes of any other number, which
    the body holds as a double, is left to the interface. *)
Definition integerColumn (v : JsVal) : option Z :=
  match v with
  | JNum n => if safeInteger n then Some n else castInteger (JNum n)
  | JNull => None
  | w => castInteger w
  end.

(** A value for a [STRING] column; [null] is not one. *)
Definition textColumn (v : JsVal) : option string :=
  match v with
  | JStr s => Some s
  | JNull => None
  | w => castString w
  end.

(** An attribute declared [allowNull: false]: absent or [null] is refused. *)
Definition required {A} (read : JsVal -> option A) (v : option JsVal)
  : option A :=
  match v with
  | None => None
  | Some w => read w
  end.

(** A nullable [STRING] attribute on insertion: absent and [null] both
    store NULL. The outer [None] is a refusal. *)
Definition nullableText (v : option JsVal) : option (option string) :=
  match v with
  | None => Some None
  | Some JNull => Some None
  | Some w => option_map Some (textColumn w)
  end.

(** An attribute of an update: absent means the column is left alone
    ([Some None]); the outer [None] is a refusal. *)
Definition supplied {A} (read : JsVal -> option A) (v : option JsVal)
  : option (option A) :=
  match v with
  | None => Some None
  | Some w => option_map Some (read w)
  end.

Definition suppliedNullableText (v : option JsVal)
  : option (option (option string)) :=
  match v with
  | None => Some None
  | Some JNull => Some (Some None)
  | Some w => option_map (fun s => Some (Some s)) (textColumn w)
  end.

(** The primary key of a new row: the one the values give when it is
    truthy, else the next the [autoIncrement] sequence hands out (a falsy
    key, 0 among them, is left out of the INSERT). The outer [None] is a
    refusal of the given value. *)
Definition autoKey (taken : list Z) (seq : Z) : Z :=
  Z.max seq (fold_right Z.max 0 taken) + 1.

Definition newKey (v : option JsVal) (taken : list Z) (seq : Z)
  : option Z :=
  if truthy v then
    match v with
    | Some w => integerColumn w
    | None => None
    end
  else Some (autoKey taken seq).

(** [createdAt] of a new row: the value given when it is truthy, else the
    model's [defaultValue]. *)
Definition newCreatedAt (env : Env) (v : option JsVal) : option Z :=
  if truthy v then
    match v with
    | Some w => castDate w
    | None => None
    end
  else Some (started env).

Definition member (k : Z) (keys : list Z) : bool :=
  existsb (Z.eqb k) keys.

End Columns.

Module User.
Section Model.
Context `{E : Externals}.

(** [User.findOne({ where: { emailAddress } })]: the first row of the scan
    whose [emailAddress] is the given string, byte for byte. The SELECT
    fails when the string holds U+0000. *)
Definition findOne (email : string) : M (option Users.row) :=
  emit (SelectFrom TUsers);;
  if hasNul email then throw SequelizeDatabaseError
  else
    s <- getStore;;
    ret (List.find (fun u => String.eqb (Users.emailAddress u) email)
           (byKey Users.id (users s))).

(** The row [User.create(values)] builds when the values pass the model's
    validation. *)
Definition draft (env : Env) (s : Store) (values : gmap string JsVal)
  : option Users.row :=
  first ← required textColumn (values !! "firstName");
  last ← required textColumn (values !! "lastName");
  email ← required textColumn (values !! "emailAddress");
  pass ← required textColumn (values !! "password");
  key ← newKey (values !! "id") (map Users.id (users s)) (userSeq s);
  created ← newCreatedAt env (values !! "createdAt");
  Some {| Users.id := key;
          Users.firstName := first;
          Users.lastName := last;
          Users.emailAddress := email;
          Users.password := pass;
          Users.createdAt := created;
          Users.updatedAt := started env |}.

(** What makes the INSERT fail: a key the column cannot hold (the sequence
    stops at 2^63 - 1), or the primary key. *)
Definition violation (s : Store) (r : Users.row) : option Exn :=
  if negb (keyInRange (Users.id r))
  then Some SequelizeDatabaseError
  else if member (Users.id r) (map Users.id (users s))
  then Some SequelizeUniqueConstraintError
  else None.

Definition insert (s : Store) (r : Users.row) : Store :=
  {| users := users s ++ [r];
     courses := courses s;
     userSeq := Z.max (userSeq s) (Users.id r);
     courseSeq := courseSeq s |}.

(** [User.create(values)]: validation, then the INSERT. *)
Definition create (env : Env) (values : gmap string JsVal) : M Users.row :=
  s <- getStore;;
  r <- orThrow SequelizeValidationError (draft env s values);;
  emit (InsertInto TUsers);;
  match violation s r with
  | Some e => throw e
  | None => putStore (insert s r);; ret r
  end.
End Model.
End User.

Module Course.
Section Model.
Context `{E : Externals}.

(** [Course.findOne({ where: { title } })]: the first row of the scan with
    that title. The SELECT fails when the title holds U+0000. *)
Definition findOne (t : string) : M (option Courses.row) :=
  emit (SelectFrom TCourses);;
  if hasNul t then throw SequelizeDatabaseError
  else
    s <- getStore;;
    ret (List.find (fun c => String.eqb (Courses.title c) t)
           (byKey Courses.id (courses s))).

(** [Course.findAll(...)]: every row, as the scan returns them. *)
Definition findAll : M (list Courses.row) :=
  emit (SelectFrom TCourses);;
  s <- getStore;;
  ret (byKey Courses.id (courses s)).

(** The row of a table with a given key. No two rows of a table have the
    same key, so that the order of the scan does not matter here. *)
Definition lookup (key : option Z) (table : list Courses.row)
  : option Courses.row :=
  match key with
  | Some k => List.find (fun c => Courses.id c =? k)%Z table
  | None => None
  end.

(** [Course.findByPk(id)], [id] being the text of the path parameter. The
    SELECT fails when the text holds U+0000. *)
Definition findByPk (id : string) : M (option Courses.row) :=
  emit (SelectFrom TCourses);;
  if hasNul id then throw SequelizeDatabaseError
  else
    s <- getStore;;
    ret (lookup (keyOfParam id) (courses s)).

Definition userExists (s : Store) (u : Z) : bool :=
  member u (map Users.id (users s)).

(** The row [Course.create(values)] builds when the values pass the
    model's validation. *)
Definition draft (env : Env) (s : Store) (values : gmap string JsVal)
  : option Courses.row :=
  owner ← required integerColumn (values !! "userId");
  t ← required textColumn (values !! "title");
  d ← required textColumn (values !! "description");
  time ← nullableText (values !! "estimatedTime");
  materials ← nullableText (values !! "materialsNeeded");
  key ← newKey (values !! "id") (map Courses.id (courses s)) (courseSeq s);
  created ← newCreatedAt env (values !! "createdAt");
  Some {| Courses.id := key;
          Courses.userId := owner;
          Courses.title := t;
          Courses.description := d;
          Courses.estimatedTime := time;
          Courses.materialsNeeded := materials;
          Courses.createdAt := created;
          Courses.updatedAt := started env |}.

(** What makes the INSERT fail: a key the column cannot hold (the sequence
    stops at 2^63 - 1), the primary key, or the foreign key when the
    database enforces it. *)
Definition violation (s : Store) (r : Courses.row) : option Exn :=
  if negb (keyInRange (Courses.id r))
  then Some SequelizeDatabaseError
  else if member (Courses.id r) (map Courses.id (courses s))
  then Some SequelizeUniqueConstraintError
  else if foreignKeys && negb (userExists s (Courses.userId r))
  then Some SequelizeForeignKeyConstraintError
  else None.

Definition insert (s : Store) (r : Courses.row) : Store :=
  {| users := users s;
     courses := courses s ++ [r];
     userSeq := userSeq s;
     courseSeq := Z.max (courseSeq s) (Courses.id r) |}.

(** [Course.create(values)]: validation, then the INSERT. *)
Definition create (env : Env) (values : gmap string JsVal)
  : M Courses.row :=
  s <- getStore;;
  r <- orThrow SequelizeValidationError (draft env s values);;
  emit (InsertInto TCourses);;
  match violation s r with
  | Some e => throw e
  | None => putStore (insert s r);; ret r
  end.

(** The columns an update sets: those among the model's attributes that
    the values supply. *)
Record Patch := {
  setId : option Z;
  setUserId : option Z;
  setTitle : option string;
  setDescription : option string;
  setEstimatedTime : option (option string);
  setMaterialsNeeded : option (option string);
  setCreatedAt : option Z
}.

Definition readPatch (values : gmap string JsVal) : option Patch :=
  match supplied integerColumn (values !! "id"),
        supplied integerColumn (values !! "userId"),
        supplied textColumn (values !! "title"),
        supplied textColumn (values !! "description"),
        suppliedNullableText (values !! "estimatedTime"),
        suppliedNullableText (values !! "materialsNeeded"),
        supplied castDate (values !! "createdAt") with
  | Some i, Some u, Some t, Some d, Some time, Some materials, Some c =>
      Some {| setId := i; setUserId := u; setTitle := t;
              setDescription := d; setEstimatedTime := time;
              setMaterialsNeeded := materials; setCreatedAt := c |}
  | _, _, _, _, _, _, _ => None
  end.

Definition applyPatch (env : Env) (p : Patch) (c : Courses.row)
  : Courses.row :=
  {| Courses.id := default (Courses.id c) (setId p);
     Courses.userId := default (Courses.userId c) (setUserId p);
     Courses.title := default (Courses.title c) (setTitle p);
     Courses.description :=
       default (Courses.description c) (setDescription p);
     Courses.estimatedTime :=
       default (Courses.estimatedTime c) (setEstimatedTime p);
     Courses.materialsNeeded :=
       default (Courses.materialsNeeded c) (setMaterialsNeeded p);
     Courses.createdAt := default (Courses.createdAt c) (setCreatedAt p);
     Courses.updatedAt := started env |}.

Definition matches (key : option Z) (c : Courses.row) : bool :=
  match key with
  | Some k => (Courses.id c =? k)%Z
  | None => false
  end.

(** Whether the UPDATE would leave two rows with one primary key. *)
Definition keyClash (p : Patch) (key : option Z)
  (table : list Courses.row) : bool :=
  match setId p with
  | Some n =>
      existsb (matches key) table
      && member n (map Courses.id
                     (List.filter (fun c => negb (matches key c)) table))
  | None => false
  end.

Definition ownerMissing (p : Patch) (key : option Z) (s : Store)
  : bool :=
  match setUserId p with
  | Some u =>
      foreignKeys && existsb (matches key) (courses s)
      && negb (userExists s u)
  | None => false
  end.

(** Whether the UPDATE sets a key the column cannot hold. *)
Definition keyTooLarge (p : Patch) : bool :=
  match setId p with
  | Some n => negb (keyInRange n)
  | None => false
  end.

(** [Course.update(values, { where: { id } })]. The text of [id] is part
    of the statement, which fails when it holds U+0000. *)
Definition update (env : Env) (values : gmap string JsVal) (id : string)
  : M unit :=
  p <- orThrow SequelizeValidationError (readPatch values);;
  emit (UpdateIn TCourses);;
  s <- getStore;;
  let key := keyOfParam id in
  if hasNul id || keyTooLarge p
  then throw SequelizeDatabaseError
  else if keyClash p key (courses s)
  then throw SequelizeUniqueConstraintError
  else if ownerMissing p key s
  then throw SequelizeForeignKeyConstraintError
  else
    putStore {| users := users s;
                courses :=
                  map (fun c => if matches key c then applyPatch env p c
                                else c) (courses s);
                userSeq := userSeq s;
                courseSeq := courseSeq s |}.

(** [Course.destroy({ where: { id } })]. The text of [id] is part of the
    statement, which fails when it holds U+0000. *)
Definition destroy (id : string) : M unit :=
  emit (DeleteFrom TCourses);;
  if hasNul id then throw SequelizeDatabaseError
  else
  s <- getStore;;
  putStore {| users := users s;
              courses := List.filter
                           (fun c => negb (matches (keyOfParam id) c))
                           (courses s);
              userSeq := userSeq s;
              courseSeq := courseSeq s |}.
End Model.
End Course.

(** ** Requests, responses and middleware *)

(** What [auth(req)] returns when the request carries a well-formed Basic
    [Authorization] header. *)
Record Credentials := {
  name : string;
  pass : string
}.

Inductive Method := GET | POST | PUT | DELETE.

(** The paths of the router; [CoursePath id] is [/courses/:id], with the
    text of the parameter. *)
Inductive Path :=
| UsersPath
| CoursesPath
| CoursePath (id : string).

(** A request as it arrives. [credentials] is the result of [auth(req)]:
    [None] when the header is missing. [body] is the parsed JSON body. The
    embedding covers the requests that carry the validated fields in
    their body only, not in the query string, the cookies or the headers. *)
Record Request := {
  method : Method;
  path : Path;
  credentials : option Credentials;
  body : gmap string JsVal
}.

(** One entry of [validationResult(req).array()]. *)
Record ValidationFailure := {
  param : string;
  msg : string
}.

(** The request object the middleware share and extend. *)
Module Req.
Record t := {
  request : Request;
  currentUser : option Users.row;
  validationErrors : list ValidationFailure
}.

Definition incoming (r : Request) : t :=
  {| request := r; currentUser := None; validationErrors := [] |}.

Definition body (req : t) : gmap string JsVal := body (request req).

Definition credentials (req : t) : option Credentials :=
  credentials (request req).

(** [req.currentUser = user]. *)
Definition setCurrentUser (req : t) (u : Users.row) : t :=
  {| request := request req;
     currentUser := Some u;
     validationErrors := validationErrors req |}.

Definition addErrors (req : t) (errs : list ValidationFailure) : t :=
  {| request := request req;
     currentUser := currentUser req;
     validationErrors := validationErrors req ++ errs |}.
End Req.

Inductive Body :=
| NoBody
| Json (v : JsVal)
| ErrorBody (e : Exn).

Module Res.
Record t := {
  status : Z;
  headers : list (string * string);
  body : Body
}.

(** [res.status(code).json(value)]. *)
Definition json (code : Z) (v : JsVal) : t :=
  {| status := code; headers := []; body := Json v |}.

(** [res.sendStatus(code)] for a code that carries no body. *)
Definition sendStatus (code : Z) : t :=
  {| status := code; headers := []; body := NoBody |}.

(** [res.status(code).setHeader('Location', uri); res.end()]. *)
Definition created (uri : string) : t :=
  {| status := 201; headers := [("Location", uri)]; body := NoBody |}.
End Res.

(** A middleware either passes the request on ([next()]) or answers. *)
Inductive Step :=
| Next (req : Req.t)
| Done (res : Res.t).

Definition Middleware : Type := Req.t -> M Step.

(** [asyncHandler(cb)]: what [cb] throws becomes a 500 carrying the error. *)
Definition asyncHandler (cb : Middleware) : Middleware :=
  fun req w =>
    match cb req w with
    | (Throw error, w') =>
        (Return (Done {| Res.status := 500; Res.headers := [];
                         Res.body := ErrorBody error |}), w')
    | r => r
    end.

(** The middleware of a route, in order. [None]: nobody answered. *)
Fixpoint run (stack : list Middleware) (req : Req.t) : M (option Res.t) :=
  match stack with
  | [] => ret None
  | m :: rest =>
      s <- m req;;
      match s with
      | Next req' => run rest req'
      | Done res => ret (Some res)
      end
  end.

(** ** Validation chains *)

Record Validator := {
  test : option JsVal -> bool;
  message : option string
}.

Record Chain := {
  field : string;
  validators : list Validator
}.

Definition check (f : string) : Chain :=
  {| field := f; validators := [] |}.

Definition addValidator (t : option JsVal -> bool) (c : Chain) : Chain :=
  {| field := field c;
     validators := validators c ++ [{| test := t; message := None |}] |}.

(** [.exists({ checkNull: true, checkFalsy: true })]. *)
Definition exists_ : Chain -> Chain := addValidator truthy.

(** [.isEmail()], applied to the string form of the value. *)
Definition isEmail_ `{E : Externals} : Chain -> Chain :=
  addValidator (fun v => isEmail (toString v)).

Fixpoint setLastMessage (m : string) (vs : list Validator)
  : list Validator :=
  match vs with
  | [] => []
  | [v] => [{| test := test v; message := Some m |}]
  | v :: rest => v :: setLastMessage m rest
  end.

(** [.withMessage(m)]: the message of the validator added last. *)
Definition withMessage (m : string) (c : Chain) : Chain :=
  {| field := field c; validators := setLastMessage m (validators c) |}.

(** The failures of one chain: every validator runs, each failing one
    reports its message, or [Invalid value] when it has none. *)
Definition failures (c : Chain) (b : gmap string JsVal)
  : list ValidationFailure :=
  flat_map
    (fun v => if test v (b !! field c) then []
              else [{| param := field c;
                       msg := default "Invalid value" (message v) |}])
    (validators c).

(** A chain as middleware: it records its failures and goes on. *)
Definition validate (c : Chain) : Middleware :=
  fun req => ret (Next (Req.addErrors req (failures c (Req.body req)))).

Definition provide (f : string) : string :=
  "Please provide a value for " ++ quoted f.

(** The answer to a request that failed validation. *)
Definition validationResponse (errors : list ValidationFailure) : Res.t :=
  let errorMessages := map msg errors in
  Res.json 400 (JObj [("errors", JArr (map JStr errorMessages))]).

(** An object literal; a property whose value is [undefined] is left out. *)
Fixpoint object (props : list (string * option JsVal))
  : gmap string JsVal :=
  match props with
  | [] => ∅
  | (k, Some v) :: rest => <[k := v]> (object rest)
  | (_, None) :: rest => object rest
  end.

(** ** The router of [src/routes/index.js] *)

Section Router.
Context `{E : Externals}.

Definition accessDenied : Res.t :=
  Res.json 401 (JObj [("message", JStr "Access Denied")]).

(** [if (message)]: [null] and the empty string are falsy. *)
Definition isSet (message : option string) : bool :=
  match message with
  | Some m => negb (String.eqb m "")
  | None => false
  end.

(** Middleware to authenticate the request using Basic Authentication. *)
Definition authenticateUser : Middleware :=
  asyncHandler (fun req =>
    r <- match Req.credentials req with
         | Some credentials =>
             user <- User.findOne (name credentials);;
             match user with
             | Some user =>
                 let authenticated :=
                   compareSync (pass credentials) (Users.password user) in
                 if authenticated
                 then ret (None, Req.setCurrentUser req user)
                 else ret (Some ("Authentication failure for username: "
                                   ++ Users.emailAddress user), req)
             | None =>
                 ret (Some ("User not found for username: "
                              ++ name credentials), req)
             end
         | None => ret (Some "Auth header not found", req)
         end;;
    let '(message, req') := r in
    if isSet message
    then warn (default "" message);; ret (Done accessDenied)
    else ret (Next req')).

(** [GET /users]: the current authenticated user. Reading the properties
    of a missing [req.currentUser] throws. *)
Definition getUsers : Middleware :=
  fun req =>
    match Req.currentUser req with
    | Some u =>
        ret (Done (Res.json 200
               (JObj [("id", JNum (Users.id u));
                      ("firstName", JStr (Users.firstName u));
                      ("lastName", JStr (Users.lastName u));
                      ("emailAddress", JStr (Users.emailAddress u))])))
    | None => throw TypeError
    end.

Definition userChains : list Chain :=
  [ withMessage (provide "firstName") (exists_ (check "firstName"));
    withMessage (provide "lastName") (exists_ (check "lastName"));
    withMessage (provide "password") (exists_ (check "password"));
    withMessage (provide "emailAddress")
      (isEmail_ (exists_ (check "emailAddress"))) ].

Definition courseChains : list Chain :=
  [ withMessage (provide "title") (exists_ (check "title"));
    withMessage (provide "description") (exists_ (check "description")) ].

(** [value.trim()]: only a string has the method. *)
Definition trimOf (v : option JsVal) : M string :=
  match v with
  | Some (JStr s) => ret (trim s)
  | _ => throw TypeError
  end.

(** [bcryptjs.hashSync(password)]: anything but a string is refused. *)
Definition bcryptHash (env : Env) (v : option JsVal) : M string :=
  match v with
  | Some (JStr s) => ret (hashSync (salt env) s)
  | _ => throw IllegalArguments
  end.

(** [POST /users], after its validation chains. What [User.create] returns
    is an object, so the test [if (createdUser)] always succeeds. *)
Definition postUsers (env : Env) : Middleware :=
  asyncHandler (fun req =>
    let errors := Req.validationErrors req in
    if negb (bool_decide (errors = []))
    then ret (Done (validationResponse errors))
    else
      email <- trimOf (Req.body req !! "emailAddress");;
      existingUser <- User.findOne email;;
      match existingUser with
      | None =>
          let firstName := Req.body req !! "firstName" in
          let lastName := Req.body req !! "lastName" in
          let emailAddress := Req.body req !! "emailAddress" in
          password <- bcryptHash env (Req.body req !! "password");;
          let userProps :=
            object [("firstName", firstName);
                    ("lastName", lastName);
                    ("emailAddress", emailAddress);
                    ("password", Some (JStr password))] in
          createdUser <- User.create env userProps;;
          ret (Done (Res.created "/"))
      | Some _ =>
          ret (Done (Res.json 400
                 (JObj [("error", JStr "User already exists")])))
      end).

Definition nullable (o : option string) : JsVal :=
  match o with
  | Some s => JStr s
  | None => JNull
  end.

(** A course with the attributes [GET /courses] asks for. *)
Definition courseAttributes (c : Courses.row) : list (string * JsVal) :=
  [("id", JNum (Courses.id c));
   ("userId", JNum (Courses.userId c));
   ("title", JStr (Courses.title c));
   ("description", JStr (Courses.description c));
   ("estimatedTime", nullable (Courses.estimatedTime c));
   ("materialsNeeded", nullable (Courses.materialsNeeded c))].

(** A course with all its columns. *)
Definition courseJson (c : Courses.row) : JsVal :=
  JObj (courseAttributes c
        ++ [("createdAt", JStr (toISOString (Courses.createdAt c)));
            ("updatedAt", JStr (toISOString (Courses.updatedAt c)))])%list.

(** [GET /courses]. *)
Definition getCourses : Middleware :=
  asyncHandler (fun req =>
    courses <- Course.findAll;;
    ret (Done (Res.json 200
           (JArr (map (fun c => JObj (courseAttributes c)) courses))))).

(** [GET /courses/:id]; a missing course is sent as [null]. *)
Definition getCourse (id : string) : Middleware :=
  asyncHandler (fun req =>
    course <- Course.findByPk id;;
    ret (Done (Res.json 200
           match course with
           | Some c => courseJson c
           | None => JNull
           end))).

(** [POST /courses], after authentication and its validation chains. What
    [Course.create] returns is an object, so the test [if (createdCourse)]
    always succeeds; the title in the message is a string, [trim] having
    accepted it. *)
Definition postCourses (env : Env) : Middleware :=
  asyncHandler (fun req =>
    let errors := Req.validationErrors req in
    if negb (bool_decide (errors = []))
    then ret (Done (validationResponse errors))
    else
      t <- trimOf (Req.body req !! "title");;
      existingCourse <- Course.findOne t;;
      match existingCourse with
      | None =>
          createdCourse <- Course.create env (Req.body req);;
          ret (Done (Res.created
                 ("/course/" ++ showNum (Courses.id createdCourse))))
      | Some _ =>
          ret (Done (Res.json 400
                 (JObj [("error",
                         JStr ("Course with title "
                               ++ quoted (toString (Req.body req !! "title"))
                               ++ " already exists."))])))
      end).

Definition notFound (id : string) : Res.t :=
  Res.json 400
    (JObj [("error", JStr ("Course with id: " ++ id ++ " not found."))]).

Definition forbidden (verb : string) : Res.t :=
  Res.json 403
    (JObj [("error",
            JStr ("Users can only " ++ verb ++ " their own courses."))]).

(** [req.currentUser.id]. *)
Definition currentUserId (req : Req.t) : M Z :=
  match Req.currentUser req with
  | Some u => ret (Users.id u)
  | None => throw TypeError
  end.

(** [PUT /courses/:id], after authentication and its validation chains. *)
Definition putCourse (env : Env) (id : string) : Middleware :=
  asyncHandler (fun req =>
    let errors := Req.validationErrors req in
    if negb (bool_decide (errors = []))
    then ret (Done (validationResponse errors))
    else
      foundCourse <- Course.findByPk id;;
      match foundCourse with
      | Some foundCourse =>
          me <- currentUserId req;;
          if (me =? Courses.userId foundCourse)%Z
          then Course.update env (Req.body req) id;;
               ret (Done (Res.sendStatus 204))
          else ret (Done (forbidden "edit"))
      | None => ret (Done (notFound id))
      end).

(** [DELETE /courses/:id], after authentication. *)
Definition deleteCourse (id : string) : Middleware :=
  asyncHandler (fun req =>
    foundCourse <- Course.findByPk id;;
    match foundCourse with
    | Some foundCourse =>
        me <- currentUserId req;;
        if (me =? Courses.userId foundCourse)%Z
        then Course.destroy id;;
             ret (Done (Res.sendStatus 204))
        else ret (Done (forbidden "delete"))
    | None => ret (Done (notFound id))
    end).

(** The middleware registered for a method and a path. *)
Definition route (env : Env) (m : Method) (p : Path)
  : option (list Middleware) :=
  match m, p with
  | GET, UsersPath => Some [authenticateUser; getUsers]
  | POST, UsersPath =>
      Some (map validate userChains ++ [postUsers env])%list
  | GET, CoursesPath => Some [getCourses]
  | GET, CoursePath id => Some [getCourse id]
  | POST, CoursesPath =>
      Some (authenticateUser :: map validate courseChains
            ++ [postCourses env])%list
  | PUT, CoursePath id =>
      Some (authenticateUser :: map validate courseChains
            ++ [putCourse env id])%list
  | DELETE, CoursePath id => Some [authenticateUser; deleteCourse id]
  | _, _ => None
  end.

(** The router on an incoming request. *)
Definition router (env : Env) (r : Request) : M (option Res.t) :=
  match route env (method r) (path r) with
  | Some stack => run stack (Req.incoming r)
  | None => ret None
  end.

End Router.

(** ** A sample of the libraries, to run the router on concrete requests *)

Module Sample.

Definition hasAt (s : string) : bool :=
  existsb (Ascii.eqb "@"%char) (list_ascii_of_string s).

Definition address (s : string) : bool := hasAt s && negb (hasNul s).

Definition digit (a : ascii) : option Z :=
  let n := Z.of_N (N_of_ascii a) in
  if (48 <=? n)%Z && (n <=? 57)%Z then Some (n - 48)%Z else None.

Fixpoint decimal (acc : Z) (s : string) : option Z :=
  match s with
  | EmptyString => Some acc
  | String a rest =>
      match digit a with
      | Some d => decimal (10 * acc + d) rest
      | None => None
      end
  end.

Definition key (s : string) : option Z :=
  if hasNul s then None
  else
    match s with
    | EmptyString => None
    | _ => decimal 0 s
    end.

Definition hash (salt p : string) : string := "$2a$10$" ++ salt ++ p.

Definition endsWith (p h : string) : bool :=
  String.eqb
    (substring (String.length h - String.length p) (String.length p) h) p.

Definition compare (p h : string) : bool :=
  String.prefix "$2a$10$" h && endsWith p h.

Definition externals : Externals.
Proof.
  refine {| isEmail := address;
            hashSync := hash;
            compareSync := compare;
            castInteger := fun _ => None;
            castString := fun _ => None;
            castDate := fun _ => None;
            keyOfParam := key;
            toISOString := showNum;
            foreignKeys := true |}.
  - intros s H. unfold address in H.
    destruct (hasNul s); [|reflexivity].
    rewrite andb_false_r in H. discriminate H.
  - intros s k H. unfold key in H.
    destruct (hasNul s); [discriminate H|reflexivity].
Defined.

Definition env : Env := {| started := 1000; salt := "N9qo8uLOickgx2ZMRZoMye" |}.

Definition empty : World :=
  {| store := {| users := []; courses := []; userSeq := 0; courseSeq := 0 |};
     events := [] |}.

(** U+3000 IDEOGRAPHIC SPACE in UTF-8: white space that [trim] removes and
    that is in the range of characters validator.js allows in the local
    part of an address. *)
Definition ideographicSpace : string :=
  String "227"%char (String "128"%char (String "128"%char "")).

Definition spacedEmail : string := ideographicSpace ++ "a@b.com".


(** A name that holds U+0000, as a Basic Authentication header can carry
    it. *)
Definition garbledName : string := String "000"%char "joe@smith.com".

(** The body of a sign-up. *)
Definition signup (first last email pass : string) : gmap string JsVal :=
  object [("firstName", Some (JStr first));
          ("lastName", Some (JStr last));
          ("emailAddress", Some (JStr email));
          ("password", Some (JStr pass))].

Definition postUser (b : gmap string JsVal) : Request :=
  {| method := POST; path := UsersPath; credentials := None; body := b |}.

(** Two users, with the password [pw], and a course of the first. *)
Definition joe : Users.row :=
  {| Users.id := 1; Users.firstName := "Joe"; Users.lastName := "Smith";
     Users.emailAddress := "joe@smith.com";
     Users.password := hash (salt env) "pw";
     Users.createdAt := 1000; Users.updatedAt := 1000 |}.

Definition sally : Users.row :=
  {| Users.id := 2; Users.firstName := "Sally"; Users.lastName := "Jones";
     Users.emailAddress := "sally@jones.com";
     Users.password := hash (salt env) "pw";
     Users.createdAt := 1000; Users.updatedAt := 1000 |}.

Definition algebra : Courses.row :=
  {| Courses.id := 1; Courses.userId := 1; Courses.title := "Algebra";
     Courses.description := "Groups and rings";
     Courses.estimatedTime := Some "12 hours";
     Courses.materialsNeeded := None;
     Courses.createdAt := 1000; Courses.updatedAt := 1000 |}.

Definition campus : World :=
  {| store := {| users := [joe; sally]; courses := [algebra];
                 userSeq := 2; courseSeq := 1 |};
     events := [] |}.

Definition as_ (u : Users.row) : option Credentials :=
  Some {| name := Users.emailAddress u; pass := "pw" |}.

Definition anonymous : Request :=
  {| method := GET; path := UsersPath; credentials := None; body := ∅ |}.

Definition whoami : Request :=
  {| method := GET; path := UsersPath; credentials := as_ joe; body := ∅ |}.

(** Who am I, asked under the garbled name. *)
Definition garbled : Request :=
  {| method := GET; path := UsersPath;
     credentials := Some {| name := garbledName; pass := "pw" |};
     body := ∅ |}.

(** A course body: a title, a description and an owner. *)
Definition course (t d : string) (owner : Z) : gmap string JsVal :=
  object [("title", Some (JStr t));
          ("description", Some (JStr d));
          ("userId", Some (JNum owner))].

(** Joe gives Sally a course of her own. *)
Definition topologyForSally : Request :=
  {| method := POST; path := CoursesPath; credentials := as_ joe;
     body := course "Topology" "Open sets" 2 |}.

Definition topology : Courses.row :=
  {| Courses.id := 2; Courses.userId := 2; Courses.title := "Topology";
     Courses.description := "Open sets";
     Courses.estimatedTime := None; Courses.materialsNeeded := None;
     Courses.createdAt := 1000; Courses.updatedAt := 1000 |}.

(** Joe posts a course without a description. *)
Definition untold : Request :=
  {| method := POST; path := CoursesPath; credentials := as_ joe;
     body := object [("title", Some (JStr "Topology"));
                     ("userId", Some (JNum 1))] |}.

(** Joe hands his course over to Sally. *)
Definition handOver : Request :=
  {| method := PUT; path := CoursePath "1"; credentials := as_ joe;
     body := course "Algebra" "Groups and rings" 2 |}.

(** Joe rewrites the description of his course. *)
Definition retitle : Request :=
  {| method := PUT; path := CoursePath "1"; credentials := as_ joe;
     body := object [("title", Some (JStr "Algebra I"));
                     ("description", Some (JStr "Groups"))] |}.

(** Sally writes to, and deletes, the course of Joe. *)
Definition intrude (b : gmap string JsVal) : Request :=
  {| method := PUT; path := CoursePath "1"; credentials := as_ sally;
     body := b |}.

Definition erase : Request :=
  {| method := DELETE; path := CoursePath "1"; credentials := as_ sally;
     body := ∅ |}.

(** Joe posts a course with an empty body. *)
Definition blank : Request :=
  {| method := POST; path := CoursesPath; credentials := as_ joe;
     body := ∅ |}.



Definition newcomer : Request :=
  postUser (signup "Ada" "Byron" "ada@byron.org" "secret").

(** Anyone lists the courses, or reads one. *)
Definition listCourses : Request :=
  {| method := GET; path := CoursesPath; credentials := None; body := ∅ |}.

Definition readCourse (id : string) : Request :=
  {| method := GET; path := CoursePath id; credentials := None; body := ∅ |}.

(** Joe writes to, and deletes, a course. *)
Definition joePuts (id : string) (b : gmap string JsVal) : Request :=
  {| method := PUT; path := CoursePath id; credentials := as_ joe;
     body := b |}.

Definition joeDeletes (id : string) : Request :=
  {| method := DELETE; path := CoursePath id; credentials := as_ joe;
     body := ∅ |}.

Definition joePosts (b : gmap string JsVal) : Request :=
  {| method := POST; path := CoursesPath; credentials := as_ joe;
     body := b |}.

(** Nobody in particular deletes a course. *)
Definition anyoneDeletes (id : string) : Request :=
  {| method := DELETE; path := CoursePath id; credentials := None;
     body := ∅ |}.

(** A second course, of Sally, beside the one of Joe. *)
Definition geometry : Courses.row :=
  {| Courses.id := 2; Courses.userId := 2; Courses.title := "Geometry";
     Courses.description := "Lines and circles";
     Courses.estimatedTime := None; Courses.materialsNeeded := None;
     Courses.createdAt := 1000; Courses.updatedAt := 1000 |}.

Definition twoCourses : World :=
  {| store := {| users := [joe; sally]; courses := [algebra; geometry];
                 userSeq := 2; courseSeq := 2 |};
     events := [] |}.

(** Courses stored under the keys 1, 5 and 3, in that order. *)
Definition analysis : Courses.row :=
  {| Courses.id := 5; Courses.userId := 1; Courses.title := "Analysis";
     Courses.description := "Limits";
     Courses.estimatedTime := None; Courses.materialsNeeded := None;
     Courses.createdAt := 1000; Courses.updatedAt := 1000 |}.

Definition logic : Courses.row :=
  {| Courses.id := 3; Courses.userId := 2; Courses.title := "Logic";
     Courses.description := "Proofs";
     Courses.estimatedTime := None; Courses.materialsNeeded := None;
     Courses.createdAt := 1000; Courses.updatedAt := 1000 |}.

Definition library : World :=
  {| store := {| users := [joe; sally];
                 courses := [algebra; analysis; logic];
                 userSeq := 2; courseSeq := 5 |};
     events := [] |}.

(** Joe gives Sally a course of her own and sends 0 as its key. *)
Definition topologyUnderZero : Request :=
  joePosts (<["id" := JNum 0]> (course "Topology" "Open sets" 2)).

(** Joe gives his course the title of Sally's. *)
Definition retitleAsGeometry : Request :=
  joePuts "1" (object [("title", Some (JStr "Geometry"));
                       ("description", Some (JStr "Groups"))]).

(** The sign-up of Ada with a key, an owner and credentials sent along. *)
Definition newcomerWithKey : Request :=
  {| method := POST; path := UsersPath; credentials := as_ joe;
     body := <["id" := JNum 1]>
               (<["userId" := JNum 2]>
                  (signup "Ada" "Byron" "ada@byron.org" "secret")) |}.



End Sample.

(** ** Notions the properties are stated with *)

Section Notions.
Context `{E : Externals}.

(** The user stored under an address, if any: of several, the one with
    the least key. *)
Definition userNamed (name : string) (w : World) : option Users.row :=
  List.find (fun u => String.eqb (Users.emailAddress u) name)
    (byKey Users.id (users (store w))).

(** The request authenticates as [u]: it has credentials whose name the
    database can look up, [u] is the user they name and the password
    matches the stored hash. *)
Definition Authenticated (req : Req.t) (w : World) (u : Users.row) : Prop :=
  exists c, Req.credentials req = Some c
            /\ hasNul (name c) = false
            /\ userNamed (name c) w = Some u
            /\ compareSync (pass c) (Users.password u) = true.

(** The three ways authentication fails, each with the line it logs. The
    last two are reached when the look-up of the name succeeds. *)
Inductive AuthFailure (req : Req.t) (w : World) : string -> Prop :=
| MissingHeader :
    Req.credentials req = None ->
    AuthFailure req w "Auth header not found"
| UnknownUser c :
    Req.credentials req = Some c ->
    hasNul (name c) = false ->
    userNamed (name c) w = None ->
    AuthFailure req w ("User not found for username: " ++ name c)
| WrongPassword c u :
    Req.credentials req = Some c ->
    hasNul (name c) = false ->
    userNamed (name c) w = Some u ->
    compareSync (pass c) (Users.password u) = false ->
    AuthFailure req w
      ("Authentication failure for username: " ++ Users.emailAddress u).

(** The world after a step that only added to the log. *)
Definition logged (w : World) (new : list Event) : World :=
  {| store := store w; events := (events w ++ new)%list |}.

(** The answer to a request whose statement the database refused. *)
Definition databaseError : Res.t :=
  {| Res.status := 500; Res.headers := [];
     Res.body := ErrorBody SequelizeDatabaseError |}.

(** The failures of several chains, in the order of the chains. *)
Definition allFailures (chains : list Chain) (b : gmap string JsVal)
  : list ValidationFailure :=
  flat_map (fun c => failures c b) chains.

(** The events a step added to the log of the world. *)
Definition added (w w' : World) (new : list Event) : Prop :=
  events w' = (events w ++ new)%list.

(** The keys of a JSON object. *)
Definition keys (v : JsVal) : list string :=
  match v with
  | JObj fields => map fst fields
  | _ => []
  end.

(** The validation chains in front of the handler of a route. *)
Definition chainsFor (m : Method) (p : Path) : option (list Chain) :=
  match m, p with
  | POST, UsersPath => Some userChains
  | POST, CoursesPath => Some courseChains
  | PUT, CoursePath _ => Some courseChains
  | _, _ => None
  end.

(** Whether [authenticateUser] is the first middleware of a route. *)
Definition guarded (m : Method) (p : Path) : bool :=
  match m, p with
  | GET, UsersPath => true
  | POST, CoursesPath => true
  | PUT, CoursePath _ => true
  | DELETE, CoursePath _ => true
  | _, _ => false
  end.

(** The row a sign-up stores. *)
Definition signedUp (env : Env) (s : Store) (f l e h : string)
  : Users.row :=
  {| Users.id := autoKey (map Users.id (users s)) (userSeq s);
     Users.firstName := f;
     Users.lastName := l;
     Users.emailAddress := e;
     Users.password := h;
     Users.createdAt := started env;
     Users.updatedAt := started env |}.

(** How a table of courses can change with every owner kept: rows are
    added at the end, or rows are removed, or rows are rewritten with their
    [userId] left as it was. *)
Definition OwnersKept (old new : list Courses.row) : Prop :=
  (exists added, new = (old ++ added)%list)
  \/ (exists keep, new = List.filter keep old)
  \/ (exists g, new = map g old
                /\ forall c, Courses.userId (g c) = Courses.userId c).

(** A course with a new title and description, as an update leaves it. *)
Definition rewritten (env : Env) (t d : string) (c : Courses.row)
  : Courses.row :=
  {| Courses.id := Courses.id c;
     Courses.userId := Courses.userId c;
     Courses.title := t;
     Courses.description := d;
     Courses.estimatedTime := Courses.estimatedTime c;
     Courses.materialsNeeded := Courses.materialsNeeded c;
     Courses.createdAt := Courses.createdAt c;
     Courses.updatedAt := started env |}.

(** The course a body with a title, a description, an owner and the two
    optional texts makes, under the next key of the sequence. *)
Definition posted (env : Env) (s : Store) (owner : Z) (t d : string)
  (time materials : option string) : Courses.row :=
  {| Courses.id := autoKey (map Courses.id (courses s)) (courseSeq s);
     Courses.userId := owner;
     Courses.title := t;
     Courses.description := d;
     Courses.estimatedTime := time;
     Courses.materialsNeeded := materials;
     Courses.createdAt := started env;
     Courses.updatedAt := started env |}.

(** What one request can do to the store: nothing, or one of the four
    writes of the router. *)
Inductive Transition (env : Env) (s : Store) : Store -> Prop :=
| Unchanged :
    Transition env s s
| UserAdded row :
    User.violation s row = None ->
    Transition env s (User.insert s row)
| CourseAdded c :
    Course.violation s c = None ->
    Transition env s (Course.insert s c)
| CourseRewritten key p :
    Course.keyClash p key (courses s) = false ->
    Course.ownerMissing p key s = false ->
    Transition env s
      {| users := users s;
         courses := map (fun c => if Course.matches key c
                                  then Course.applyPatch env p c else c)
                      (courses s);
         userSeq := userSeq s;
         courseSeq := courseSeq s |}
| CoursesRemoved key :
    Transition env s
      {| users := users s;
         courses := List.filter (fun c => negb (Course.matches key c))
                      (courses s);
         userSeq := userSeq s;
         courseSeq := courseSeq s |}.

(** Requests served one after the other, each with its own salt, none
    starting before the previous one is answered. *)
Fixpoint serveAll (requests : list (Env * Request)) (w : World) : World :=
  match requests with
  | [] => w
  | (env, r) :: rest => serveAll rest (snd (router env r w))
  end.

(** No two users and no two courses have the same primary key. *)
Definition KeysUnique (s : Store) : Prop :=
  NoDup (map Users.id (users s)) /\ NoDup (map Courses.id (courses s)).

(** The owner of every course is a stored user. *)
Definition OwnersExist (s : Store) : Prop :=
  forall c, In c (courses s) ->
            In (Courses.userId c) (map Users.id (users s)).

(** A message that is reported when a test fails. *)
Definition when (failed : bool) (m : string) : list string :=
  if failed then [m] else [].

End Notions.

(** * Properties *)

Example trim_ascii : trim "  a@b.com  " = "a@b.com".
Proof. reflexivity. Qed.

Example trim_ideographic : trim Sample.spacedEmail = "a@b.com".
Proof. reflexivity. Qed.

Example trim_inner : trim "a b" = "a b".
Proof. reflexivity. Qed.

(** Unfolding the monad: the steps of a computation applied to a world. *)
Ltac monad :=
  cbv beta iota zeta
    delta [bind ret emit getStore putStore throw orThrow warn];
  cbn [store events].

(** Case analysis on whatever the goal still matches on. *)
Ltac cases :=
  repeat (monad;
          match goal with
          | |- context [match ?x with _ => _ end] =>
              lazymatch x with
              | context [match _ with _ => _ end] => fail
              | _ => destruct x eqn:?
              end
          | |- context [if ?x then _ else _] =>
              lazymatch x with
              | context [match _ with _ => _ end] => fail
              | _ => destruct x eqn:?
              end
          end).

(** ** Strings the database can look up *)

Section Text.

Lemma dropStart_suffix l : exists p, l = (p ++ Trim.dropStart l)%list.
Proof.
  remember (length l) as n eqn:Hn.
  revert l Hn. induction (lt_wf n) as [n _ IH]. intros l ->.
  destruct l as [|b r]; [by exists []|]. simpl.
  destruct (Trim.asciiSpace b).
  { destruct (IH (length r) ltac:(simpl; lia) r eq_refl) as [p Hp].
    exists (b :: p). simpl. by rewrite <- Hp. }
  destruct r as [|c r2]; [by exists []|].
  destruct ((b =? 194) && (c =? 160))%N.
  { destruct (IH (length r2) ltac:(simpl; lia) r2 eq_refl) as [p Hp].
    exists (b :: c :: p). simpl. by rewrite <- Hp. }
  destruct r2 as [|d r3]; [by exists []|].
  match goal with |- context [if ?x then _ else _] => destruct x end.
  - destruct (IH (length r3) ltac:(simpl; lia) r3 eq_refl) as [p Hp].
    exists (b :: c :: d :: p). simpl. by rewrite <- Hp.
  - by exists [].
Qed.

Lemma dropEndRev_suffix l : exists p, l = (p ++ Trim.dropEndRev l)%list.
Proof.
  remember (length l) as n eqn:Hn.
  revert l Hn. induction (lt_wf n) as [n _ IH]. intros l ->.
  destruct l as [|b r]; [by exists []|]. simpl.
  destruct (Trim.asciiSpace b).
  { destruct (IH (length r) ltac:(simpl; lia) r eq_refl) as [p Hp].
    exists (b :: p). simpl. by rewrite <- Hp. }
  destruct r as [|c r2]; [by exists []|].
  destruct ((c =? 194) && (b =? 160))%N.
  { destruct (IH (length r2) ltac:(simpl; lia) r2 eq_refl) as [p Hp].
    exists (b :: c :: p). simpl. by rewrite <- Hp. }
  destruct r2 as [|d r3]; [by exists []|].
  match goal with |- context [if ?x then _ else _] => destruct x end.
  - destruct (IH (length r3) ltac:(simpl; lia) r3 eq_refl) as [p Hp].
    exists (b :: c :: d :: p). simpl. by rewrite <- Hp.
  - by exists [].
Qed.

Lemma hasNul_bytes s :
  hasNul s = false <-> Forall textByte (Trim.bytes s).
Proof.
  unfold hasNul, Trim.bytes.
  induction (list_ascii_of_string s) as [|a l IH]; simpl.
  - split; [constructor|reflexivity].
  - rewrite orb_false_iff, IH, Forall_cons. unfold textByte.
    pose proof (N_ascii_bounded a).
    rewrite N.eqb_neq. tauto.
Qed.

Lemma hasNul_unbytes l :
  Forall textByte l -> hasNul (Trim.unbytes l) = false.
Proof.
  unfold hasNul, Trim.unbytes. rewrite list_ascii_of_string_of_list_ascii.
  induction 1 as [|b l [Hb Hlt] _ IH]; simpl; [reflexivity|].
  rewrite IH, (N_ascii_embedding b Hlt), orb_false_r.
  by apply N.eqb_neq.
Qed.

(** Trimming puts no U+0000 into a string. *)
Lemma hasNul_trim s : hasNul s = false -> hasNul (trim s) = false.
Proof.
  rewrite hasNul_bytes. intros H. apply hasNul_unbytes.
  destruct (dropStart_suffix (Trim.bytes s)) as [p Hp].
  rewrite Hp in H. apply Forall_app in H as [_ H].
  apply Forall_rev in H.
  destruct (dropEndRev_suffix (rev (Trim.dropStart (Trim.bytes s))))
    as [q Hq].
  rewrite Hq in H. apply Forall_app in H as [_ H].
  by apply Forall_rev.
Qed.

End Text.

(** ** Numbers *)

(** A number that a double holds exactly is a key the column can hold. *)
Lemma safe_key (k : Z) : safeInteger k = true -> keyInRange k = true.
Proof.
  unfold safeInteger, keyInRange. rewrite !andb_true_iff, !Z.leb_le.
  change (2 ^ 53)%Z with 9007199254740992%Z.
  change (2 ^ 63)%Z with 9223372036854775808%Z. lia.
Qed.

(** ** The order of a scan *)

Section ScanOrder.
Context {A : Type} (key : A -> Z).

Lemma place_Permutation r table :
  Permutation (r :: table) (place key r table).
Proof.
  induction table as [|x rest IH]; simpl; [reflexivity|].
  destruct (key r <=? key x)%Z; [reflexivity|].
  rewrite <- IH. apply perm_swap.
Qed.

(** The scan returns every row of the table, once. *)
Lemma byKey_Permutation table : Permutation table (byKey key table).
Proof.
  induction table as [|r rest IH]; simpl; [reflexivity|].
  rewrite <- place_Permutation. by constructor.
Qed.

Lemma place_sorted r table :
  StronglySorted (fun a b => key a <= key b)%Z table ->
  StronglySorted (fun a b => key a <= key b)%Z (place key r table).
Proof.
  induction 1 as [|x rest Hsorted IH Hx]; simpl.
  - repeat constructor.
  - destruct (key r <=? key x)%Z eqn:Hle.
    + apply Z.leb_le in Hle. constructor; [by constructor|].
      constructor; [exact Hle|].
      eapply Forall_impl; [exact Hx|]. simpl. intros y Hy. lia.
    + apply Z.leb_gt in Hle. constructor; [exact IH|].
      rewrite <- place_Permutation. constructor; [lia|exact Hx].
Qed.

(** The scan returns the rows in the order of their keys. *)
Lemma byKey_sorted table :
  StronglySorted (fun a b => key a <= key b)%Z (byKey key table).
Proof.
  induction table as [|r rest IH]; simpl; [constructor|].
  by apply place_sorted.
Qed.

Lemma byKey_In x table : In x (byKey key table) <-> In x table.
Proof.
  split; apply Permutation_in;
    [symmetry|]; apply byKey_Permutation.
Qed.

(** What the scan finds is a row of the table. *)
Lemma scan_finds p table x :
  List.find p (byKey key table) = Some x -> In x table /\ p x = true.
Proof.
  intros H. apply find_some in H. by rewrite byKey_In in H.
Qed.

(** The scan finds nothing when no row of the table qualifies. *)
Lemma scan_finds_nothing p table :
  (forall x, In x table -> p x = false) ->
  List.find p (byKey key table) = None.
Proof.
  intros Hnone. destruct (List.find _ _) as [x|] eqn:Hfind; [|reflexivity].
  apply scan_finds in Hfind. destruct Hfind as [Hin Hp].
  rewrite (Hnone x Hin) in Hp. discriminate Hp.
Qed.

(** When the scan finds nothing, no row of the table qualifies. *)
Lemma scan_found_nothing p table x :
  List.find p (byKey key table) = None -> In x table -> p x = false.
Proof.
  intros Hfind Hin. apply (find_none _ _ Hfind). by apply byKey_In.
Qed.


End ScanOrder.

(** ** The middleware stack *)

Section Stack.
Context `{E : Externals}.

Lemma addErrors_nil req : Req.addErrors req [] = req.
Proof. destruct req. unfold Req.addErrors. simpl. by rewrite app_nil_r. Qed.

Lemma addErrors_app req a b :
  Req.addErrors (Req.addErrors req a) b = Req.addErrors req (a ++ b).
Proof. unfold Req.addErrors. simpl. by rewrite app_assoc. Qed.

Lemma body_addErrors req errs :
  Req.body (Req.addErrors req errs) = Req.body req.
Proof. reflexivity. Qed.

(** The validation chains of a route hand the next middleware the request
    with all their failures, and touch nothing else. *)
Lemma run_validate chains rest req w :
  run (map validate chains ++ rest) req w
  = run rest (Req.addErrors req (allFailures chains (Req.body req))) w.
Proof.
  revert req. induction chains as [|c chains IH]; intros req; simpl.
  - by rewrite addErrors_nil.
  - unfold bind at 1, validate at 1, ret at 1.
    rewrite IH, addErrors_app, body_addErrors. reflexivity.
Qed.

Lemma authenticateUser_ok req w u :
  Authenticated req w u ->
  authenticateUser req w
  = (Return (Next (Req.setCurrentUser req u)),
     {| store := store w; events := events w ++ [SelectFrom TUsers] |}).
Proof.
  intros (c & Hc & Hn & Hu & Hp). unfold userNamed in Hu.
  unfold authenticateUser, asyncHandler, bind, User.findOne, emit, getStore,
    ret. simpl. rewrite Hc. simpl. rewrite Hn. simpl. rewrite Hu, Hp.
  reflexivity.
Qed.

Lemma authenticateUser_fails req w cause :
  AuthFailure req w cause ->
  exists reads,
    authenticateUser req w
    = (Return (Done accessDenied),
       {| store := store w;
          events := (events w ++ reads) ++ [Warn cause] |})
    /\ (reads = [] \/ reads = [SelectFrom TUsers]).
Proof.
  intros H. unfold authenticateUser, asyncHandler, bind, User.findOne, emit,
    getStore, ret, warn.
  destruct H as [Hc|c Hc Hn Hu|c u Hc Hn Hu Hp]; unfold userNamed in *.
  - exists []. rewrite Hc. simpl. rewrite app_nil_r. auto.
  - exists [SelectFrom TUsers]. rewrite Hc. simpl. rewrite Hn. simpl.
    rewrite Hu. simpl. auto.
  - exists [SelectFrom TUsers]. rewrite Hc. simpl. rewrite Hn. simpl.
    rewrite Hu, Hp. simpl. auto.
Qed.

End Stack.

(** ** Authentication *)

Section Authentication.
Context `{E : Externals}.

(** C4, for the causes the middleware tells apart. Whatever makes
    authentication fail (no Basic Authentication header, no user with the
    supplied name, a password that does not match the stored hash, the
    look-up of the name having succeeded in the last two), a route guarded
    by [authenticateUser] answers 401 with the body
    [{message: "Access Denied"}]; the cause is written to the console and
    the store is untouched. *)
Theorem access_denied_whatever_the_cause req w cause rest :
  AuthFailure req w cause ->
  exists reads,
    run (authenticateUser :: rest) req w
    = (Return (Some {| Res.status := 401;
                       Res.headers := [];
                       Res.body :=
                         Json (JObj [("message", JStr "Access Denied")]) |}),
       {| store := store w;
          events := (events w ++ reads) ++ [Warn cause] |})
    /\ Forall (fun e => isRead e = true) reads.
Proof.
  intros H. destruct (authenticateUser_fails req w cause H) as (reads & Hrun & Hreads).
  exists reads. split.
  - simpl. unfold bind at 1. rewrite Hrun. reflexivity.
  - destruct Hreads as [->| ->]; repeat constructor.
Qed.

(** C8, as the code has it. The authentication middleware leaves the store
    as it is. Without credentials it reads nothing, logs the cause and
    answers 401. With credentials it sends the database one read, the
    look-up of the name: when the name holds U+0000 the read fails and the
    answer is 500 with the error; when no user is stored under the name, or
    the password does not match the hash of the user stored under it (of
    several, the one with the least key), it logs the cause and answers
    401; otherwise it passes the request on with that very user attached
    and nothing else changed. *)
Theorem authenticateUser_effects req w :
  store (snd (authenticateUser req w)) = store w
  /\ match Req.credentials req with
     | None =>
         authenticateUser req w
         = (Return (Done accessDenied),
            logged w [Warn "Auth header not found"])
     | Some c =>
         if hasNul (name c)
         then authenticateUser req w
              = (Return (Done databaseError), logged w [SelectFrom TUsers])
         else
           match userNamed (name c) w with
           | None =>
               authenticateUser req w
               = (Return (Done accessDenied),
                  logged w [SelectFrom TUsers;
                            Warn ("User not found for username: "
                                  ++ name c)])
           | Some u =>
               if compareSync (pass c) (Users.password u)
               then authenticateUser req w
                    = (Return (Next (Req.setCurrentUser req u)),
                       logged w [SelectFrom TUsers])
               else authenticateUser req w
                    = (Return (Done accessDenied),
                       logged w [SelectFrom TUsers;
                                 Warn ("Authentication failure for username: "
                                       ++ Users.emailAddress u)])
           end
     end.
Proof.
  unfold authenticateUser, asyncHandler, bind, User.findOne, emit, getStore,
    ret, warn, throw, logged, userNamed.
  destruct (Req.credentials req) as [c|]; simpl; [|auto].
  destruct (hasNul (name c)); simpl; [auto|].
  destruct (List.find _ _) as [u|]; simpl.
  - destruct (compareSync _ _); simpl; [auto|].
    by rewrite <- app_assoc.
  - by rewrite <- app_assoc.
Qed.

(** C10. A [GET /users] request that authenticates as [u] is answered 200
    with an object of exactly four fields, the [id], [firstName], [lastName]
    and [emailAddress] of [u]; [password], [createdAt] and [updatedAt] are
    not among its keys. *)
Theorem current_user_has_four_fields env r w u :
  method r = GET ->
  path r = UsersPath ->
  Authenticated (Req.incoming r) w u ->
  exists v,
    fst (router env r w)
    = Return (Some {| Res.status := 200; Res.headers := [];
                      Res.body := Json v |})
    /\ v = JObj [("id", JNum (Users.id u));
                 ("firstName", JStr (Users.firstName u));
                 ("lastName", JStr (Users.lastName u));
                 ("emailAddress", JStr (Users.emailAddress u))]
    /\ keys v = ["id"; "firstName"; "lastName"; "emailAddress"]
    /\ ~ In "password" (keys v)
    /\ ~ In "createdAt" (keys v)
    /\ ~ In "updatedAt" (keys v).
Proof.
  intros Hm Hp Hauth. unfold router. rewrite Hm, Hp. simpl.
  unfold bind at 1. rewrite (authenticateUser_ok _ _ _ Hauth). simpl.
  eexists. split; [reflexivity|]. split; [reflexivity|].
  split; [reflexivity|].
  simpl. repeat split; intros H; repeat (destruct H as [H|H]; [discriminate H|]); exact H.
Qed.

End Authentication.

(** ** Validation *)

Section Validation.
Context `{E : Externals}.

(** The routes with validation chains run them, in order, right before
    their handler; the guarded routes start with [authenticateUser]. *)
Lemma route_chains env m p chains :
  chainsFor m p = Some chains ->
  exists handler,
    route env m p
    = Some ((if guarded m p then [authenticateUser] else [])
            ++ map validate chains ++ [handler])%list.
Proof.
  destruct m, p; simpl; intros H; try discriminate H;
    injection H as <-; eexists; reflexivity.
Qed.

Lemma route_guarded env m p :
  guarded m p = true ->
  exists rest, route env m p = Some (authenticateUser :: rest).
Proof.
  destruct m, p; simpl; intros H; try discriminate H;
    eexists; reflexivity.
Qed.

Lemma errors_incoming r errs :
  Req.validationErrors (Req.addErrors (Req.incoming r) errs) = errs.
Proof. reflexivity. Qed.

Lemma errors_setCurrentUser req u errs :
  Req.validationErrors (Req.addErrors (Req.setCurrentUser req u) errs)
  = (Req.validationErrors req ++ errs)%list.
Proof. reflexivity. Qed.

Lemma postUsers_rejects env req w :
  Req.validationErrors req <> [] ->
  postUsers env req w
  = (Return (Done (validationResponse (Req.validationErrors req))), w).
Proof.
  intros H. unfold postUsers, asyncHandler.
  rewrite bool_decide_eq_false_2 by assumption. reflexivity.
Qed.

Lemma postCourses_rejects env req w :
  Req.validationErrors req <> [] ->
  postCourses env req w
  = (Return (Done (validationResponse (Req.validationErrors req))), w).
Proof.
  intros H. unfold postCourses, asyncHandler.
  rewrite bool_decide_eq_false_2 by assumption. reflexivity.
Qed.

Lemma putCourse_rejects env id req w :
  Req.validationErrors req <> [] ->
  putCourse env id req w
  = (Return (Done (validationResponse (Req.validationErrors req))), w).
Proof.
  intros H. unfold putCourse, asyncHandler.
  rewrite bool_decide_eq_false_2 by assumption. reflexivity.
Qed.

(** Every failing validator of every chain has its message reported. *)
Lemma failing_rule_reported chains (b : gmap string JsVal) c v :
  In c chains ->
  In v (validators c) ->
  test v (b !! field c) = false ->
  In (default "Invalid value" (message v)) (map msg (allFailures chains b)).
Proof.
  intros Hc Hv Ht. apply in_map_iff.
  exists {| param := field c; msg := default "Invalid value" (message v) |}.
  split; [reflexivity|].
  unfold allFailures. apply in_flat_map. exists c. split; [assumption|].
  unfold failures. apply in_flat_map. exists v. split; [assumption|].
  rewrite Ht. left. reflexivity.
Qed.

(** The failures of the chains declared first come first. *)
Lemma allFailures_app before after (b : gmap string JsVal) :
  allFailures (before ++ after) b
  = (allFailures before b ++ allFailures after b)%list.
Proof. unfold allFailures. apply flat_map_app. Qed.

(** C9, as the code has it. A request whose body fails one or more
    validation rules, on a route with validation chains and, where the
    route is guarded, with credentials that authenticate, is answered 400
    with [{errors: [...]}]: the message of every failing rule, the rules of
    a field declared first coming first. The store is unchanged and the
    handler sends the database nothing; the only statement of the request
    is the read the authentication middleware made before validation, on
    the guarded routes. *)
Theorem invalid_body_is_rejected env r w chains :
  chainsFor (method r) (path r) = Some chains ->
  allFailures chains (body r) <> [] ->
  (guarded (method r) (path r) = true ->
   exists u, Authenticated (Req.incoming r) w u) ->
  router env r w
  = (Return (Some {| Res.status := 400;
                     Res.headers := [];
                     Res.body :=
                       Json (JObj [("errors",
                                    JArr (map JStr
                                            (map msg (allFailures chains
                                                        (body r)))))]) |}),
     {| store := store w;
        events := events w ++ (if guarded (method r) (path r)
                               then [SelectFrom TUsers] else []) |})
  /\ (forall c v,
        In c chains -> In v (validators c) ->
        test v (body r !! field c) = false ->
        In (default "Invalid value" (message v))
          (map msg (allFailures chains (body r))))
  /\ (forall before after,
        chains = (before ++ after)%list ->
        allFailures chains (body r)
        = (allFailures before (body r) ++ allFailures after (body r))%list).
Proof.
  intros Hchains Hfail Hauth.
  split; [|split; [intros; by eapply failing_rule_reported
                  |intros ? ? ->; apply allFailures_app]].
  unfold router.
  destruct (method r) eqn:Hm, (path r) as [| |id] eqn:Hp;
    simpl in Hchains; try discriminate Hchains;
    injection Hchains as <-; simpl guarded in *.
  - (* POST /users *)
    cbn [route]. rewrite run_validate. cbn [run]. unfold bind at 1.
    rewrite postUsers_rejects by (rewrite errors_incoming; exact Hfail).
    rewrite errors_incoming. unfold ret. rewrite app_nil_r.
    destruct w; reflexivity.
  - (* POST /courses *)
    destruct (Hauth eq_refl) as [u Hu].
    cbn [route]. cbn [run]. unfold bind at 1.
    rewrite (authenticateUser_ok _ _ _ Hu).
    rewrite run_validate. cbn [run]. unfold bind at 1.
    rewrite postCourses_rejects
      by (rewrite errors_setCurrentUser; simpl; exact Hfail).
    reflexivity.
  - (* PUT /courses/:id *)
    destruct (Hauth eq_refl) as [u Hu].
    cbn [route]. cbn [run]. unfold bind at 1.
    rewrite (authenticateUser_ok _ _ _ Hu).
    rewrite run_validate. cbn [run]. unfold bind at 1.
    rewrite putCourse_rejects
      by (rewrite errors_setCurrentUser; simpl; exact Hfail).
    reflexivity.
Qed.

End Validation.

(** ** Creating users *)

Section UserCreation.
Context `{E : Externals}.

Lemma fold_max_ge (k : Z) (keys : list Z) :
  In k keys -> (k <= fold_right Z.max 0 keys)%Z.
Proof.
  induction keys as [|x keys IH]; simpl; [tauto|].
  intros [->|H]; [lia|]. specialize (IH H). lia.
Qed.

(** The key the sequence hands out is not in the table. *)
Lemma autoKey_fresh (keys : list Z) (seq : Z) :
  member (autoKey keys seq) keys = false.
Proof.
  unfold member. apply not_true_is_false. intros H.
  apply existsb_exists in H. destruct H as (k & Hin & Hk).
  apply Z.eqb_eq in Hk. subst k. apply fold_max_ge in Hin.
  unfold autoKey in Hin. lia.
Qed.

Lemma draft_signup env s f l e h :
  User.draft env s
    (object [("firstName", Some (JStr f)); ("lastName", Some (JStr l));
             ("emailAddress", Some (JStr e)); ("password", Some (JStr h))])
  = Some (signedUp env s f l e h).
Proof.
  unfold User.draft. simpl object.
  repeat (rewrite lookup_insert_eq || rewrite lookup_insert_ne by done).
  rewrite !lookup_empty. reflexivity.
Qed.

Lemma nonempty_truthy (s : string) :
  s <> "" -> truthy (Some (JStr s)) = true.
Proof.
  intros H. simpl. apply negb_true_iff. by apply String.eqb_neq.
Qed.

(** A body with four non-empty strings, the last an email address, passes
    the chains of [POST /users]. *)
Lemma userChains_pass (b : gmap string JsVal) f l p e :
  b !! "firstName" = Some (JStr f) -> f <> "" ->
  b !! "lastName" = Some (JStr l) -> l <> "" ->
  b !! "password" = Some (JStr p) -> p <> "" ->
  b !! "emailAddress" = Some (JStr e) -> e <> "" ->
  isEmail e = true ->
  allFailures userChains b = [].
Proof.
  intros Hf Hf' Hl Hl' Hp Hp' He He' Hmail.
  unfold allFailures, userChains, failures. simpl.
  rewrite Hf, Hl, Hp, He. simpl toString.
  rewrite !nonempty_truthy by assumption. rewrite Hmail. reflexivity.
Qed.

(** The address of a body that passes the chains of [POST /users] can be
    looked up, trimmed. *)
Lemma valid_address (b : gmap string JsVal) e :
  allFailures userChains b = [] ->
  b !! "emailAddress" = Some (JStr e) ->
  hasNul (trim e) = false.
Proof.
  intros Hvalid He. apply hasNul_trim, isEmail_text.
  unfold allFailures, userChains, failures in Hvalid. simpl in Hvalid.
  rewrite He in Hvalid. simpl toString in Hvalid.
  destruct (isEmail e); [reflexivity|].
  repeat match goal with
         | H : (_ ++ _)%list = [] |- _ => apply app_eq_nil in H; destruct H
         end; discriminate.
Qed.


(** [POST /users] with a valid body whose trimmed address names nobody. *)
Lemma signup_creates env r w f l p e :
  method r = POST ->
  path r = UsersPath ->
  allFailures userChains (body r) = [] ->
  body r !! "firstName" = Some (JStr f) ->
  body r !! "lastName" = Some (JStr l) ->
  body r !! "password" = Some (JStr p) ->
  body r !! "emailAddress" = Some (JStr e) ->
  userNamed (trim e) w = None ->
  keyInRange (autoKey (map Users.id (users (store w))) (userSeq (store w)))
  = true ->
  router env r w
  = (Return (Some (Res.created "/")),
     {| store := User.insert (store w)
                   (signedUp env (store w) f l e (hashSync (salt env) p));
        events := events w ++ [SelectFrom TUsers; InsertInto TUsers] |}).
Proof.
  intros Hm Hpath Hvalid Hf Hl Hp He Hnone Hrange.
  unfold router. rewrite Hm, Hpath. cbn [route]. rewrite run_validate.
  change (Req.body (Req.incoming r)) with (body r).
  rewrite Hvalid, addErrors_nil. cbn [run]. unfold bind at 1.
  unfold postUsers, asyncHandler. cbn [Req.validationErrors Req.incoming].
  rewrite bool_decide_eq_true_2 by reflexivity. cbn [negb].
  change (Req.body (Req.incoming r)) with (body r).
  rewrite Hf, Hl, Hp, He. unfold userNamed in Hnone.
  unfold trimOf, bcryptHash, User.findOne, User.create. monad.
  rewrite (valid_address _ _ Hvalid He). monad.
  cbn [store events]. rewrite Hnone. rewrite draft_signup.
  unfold User.violation. cbn [signedUp Users.id store events].
  rewrite Hrange, autoKey_fresh. cbn [negb store events].
  rewrite <- app_assoc. reflexivity.
Qed.




End UserCreation.

(** ** One address, two users *)

Section Uniqueness.
Context `{E : Externals}.

(** C6, on the code. The check for an existing user looks the trimmed
    address up and the row stores the address as sent. An address that the
    validator accepts and that starts with white space is therefore stored
    as often as it is sent: after two sign-ups there are two users with the
    same [emailAddress]. *)
Theorem spaced_email_is_stored_twice env :
  isEmail Sample.spacedEmail = true ->
  let r := Sample.postUser (Sample.signup "A" "B" Sample.spacedEmail "pw") in
  let w1 := snd (router env r Sample.empty) in
  let w2 := snd (router env r w1) in
  fst (router env r Sample.empty) = Return (Some (Res.created "/"))
  /\ fst (router env r w1) = Return (Some (Res.created "/"))
  /\ map Users.id (users (store w2)) = [1; 2]%Z
  /\ map Users.emailAddress (users (store w2))
     = [Sample.spacedEmail; Sample.spacedEmail].
Proof.
  intros Hmail r w1 w2.
  assert (Hvalid : allFailures userChains (body r) = []).
  { apply (userChains_pass _ "A" "B" "pw" Sample.spacedEmail);
      try reflexivity; try discriminate; exact Hmail. }
  assert (H1 : router env r Sample.empty
               = (Return (Some (Res.created "/")),
                  {| store := User.insert (store Sample.empty)
                                (signedUp env (store Sample.empty) "A" "B"
                                   Sample.spacedEmail
                                   (hashSync (salt env) "pw"));
                     events := [SelectFrom TUsers; InsertInto TUsers] |})).
  { apply (signup_creates env r Sample.empty "A" "B" "pw" Sample.spacedEmail);
      try reflexivity. exact Hvalid. }
  assert (Hw1 : w1 = snd (router env r Sample.empty)) by reflexivity.
  rewrite H1 in Hw1. simpl snd in Hw1.
  assert (H2 : router env r w1
               = (Return (Some (Res.created "/")),
                  {| store := User.insert (store w1)
                                (signedUp env (store w1) "A" "B"
                                   Sample.spacedEmail
                                   (hashSync (salt env) "pw"));
                     events := events w1
                               ++ [SelectFrom TUsers; InsertInto TUsers] |})).
  { apply (signup_creates env r w1 "A" "B" "pw" Sample.spacedEmail);
      try reflexivity; [exact Hvalid|..]; rewrite Hw1; reflexivity. }
  split; [by rewrite H1|]. split; [by rewrite H2|].
  subst w2. rewrite H2. rewrite Hw1. split; reflexivity.
Qed.

End Uniqueness.

(** ** Courses *)

Section CourseRoutes.
Context `{E : Externals}.

(** The middleware answers 401, or 500 when the look-up fails, or passes
    the request on with a user attached; the store is as it was. *)
Lemma authenticateUser_cases req w :
  (exists res w', store w' = store w
                  /\ (res = accessDenied \/ res = databaseError)
                  /\ authenticateUser req w = (Return (Done res), w'))
  \/ (exists u w', store w' = store w
                   /\ authenticateUser req w
                      = (Return (Next (Req.setCurrentUser req u)), w')).
Proof.
  unfold authenticateUser, asyncHandler, User.findOne. monad.
  destruct (Req.credentials req) as [c|]; cbn [store events].
  - destruct (hasNul (name c)); cbn.
    { left. eexists _, _. split; [|split; [right|]; reflexivity].
      reflexivity. }
    destruct (List.find _ _) as [u|].
    + destruct (compareSync _ _); cbn.
      * right. eexists _, _. split; [|reflexivity]. reflexivity.
      * left. eexists _, _. split; [|split; [left|]; reflexivity].
        reflexivity.
    + cbn. left. eexists _, _. split; [|split; [left|]; reflexivity].
      reflexivity.
  - cbn. left. eexists _, _. split; [|split; [left|]; reflexivity].
    reflexivity.
Qed.

(** A guarded route: either the answer of the middleware, or the rest of
    the stack with the user attached; the store is as it was. *)
Lemma run_guarded rest req w :
  (exists res w', store w' = store w
                  /\ (res = accessDenied \/ res = databaseError)
                  /\ run (authenticateUser :: rest) req w
                     = (Return (Some res), w'))
  \/ (exists u w', store w' = store w
                   /\ run (authenticateUser :: rest) req w
                      = run rest (Req.setCurrentUser req u) w').
Proof.
  cbn [run]. unfold bind.
  destruct (authenticateUser_cases req w)
    as [(res & w' & Hs & Hres & ->)|(u & w' & Hs & ->)].
  - left. by exists res, w'.
  - right. by exists u, w'.
Qed.

Lemma run_authenticated rest req w u :
  Authenticated req w u ->
  run (authenticateUser :: rest) req w
  = run rest (Req.setCurrentUser req u)
      {| store := store w; events := events w ++ [SelectFrom TUsers] |}.
Proof.
  intros H. cbn [run]. unfold bind at 1.
  by rewrite (authenticateUser_ok _ _ _ H).
Qed.

(** [POST /courses] by an authenticated user, with a valid body whose
    trimmed title is new and whose row the model and the database accept. *)
Lemma course_created env r w u t c :
  method r = POST ->
  path r = CoursesPath ->
  Authenticated (Req.incoming r) w u ->
  allFailures courseChains (body r) = [] ->
  body r !! "title" = Some (JStr t) ->
  hasNul (trim t) = false ->
  List.find (fun c' => String.eqb (Courses.title c') (trim t))
    (byKey Courses.id (courses (store w))) = None ->
  Course.draft env (store w) (body r) = Some c ->
  Course.violation (store w) c = None ->
  router env r w
  = (Return (Some (Res.created ("/course/" ++ showNum (Courses.id c)))),
     {| store := Course.insert (store w) c;
        events := events w ++ [SelectFrom TUsers; SelectFrom TCourses;
                               InsertInto TCourses] |}).
Proof.
  intros Hm Hpath Hauth Hvalid Ht Hnul Hnew Hdraft Hok.
  unfold router. rewrite Hm, Hpath. cbn [route].
  rewrite (run_authenticated _ _ _ _ Hauth), run_validate.
  change (Req.body (Req.setCurrentUser (Req.incoming r) u)) with (body r).
  rewrite Hvalid, addErrors_nil. cbn [run]. unfold bind at 1.
  unfold postCourses, asyncHandler.
  cbn [Req.validationErrors Req.incoming Req.setCurrentUser].
  rewrite bool_decide_eq_true_2 by reflexivity. cbn [negb].
  change (Req.body (Req.setCurrentUser (Req.incoming r) u)) with (body r).
  rewrite Ht. unfold trimOf, Course.findOne, Course.create. monad.
  rewrite Hnul. monad.
  rewrite Hnew. monad. rewrite Hdraft. monad. rewrite Hok. monad.
  rewrite <- !app_assoc. reflexivity.
Qed.

(** The columns of a drafted row are the values of the body. *)
Lemma draft_fields env s (b : gmap string JsVal) c :
  Course.draft env s b = Some c ->
  (forall n, b !! "userId" = Some (JNum n) -> safeInteger n = true ->
             Courses.userId c = n)
  /\ (forall t, b !! "title" = Some (JStr t) -> Courses.title c = t)
  /\ (forall d, b !! "description" = Some (JStr d) ->
                Courses.description c = d)
  /\ (forall x, b !! "estimatedTime" = Some (JStr x) ->
                Courses.estimatedTime c = Some x)
  /\ (b !! "estimatedTime" = None -> Courses.estimatedTime c = None)
  /\ (forall x, b !! "materialsNeeded" = Some (JStr x) ->
                Courses.materialsNeeded c = Some x)
  /\ (b !! "materialsNeeded" = None -> Courses.materialsNeeded c = None).
Proof.
  unfold Course.draft. intros H.
  destruct (required integerColumn (b !! "userId")) as [owner|] eqn:Ho;
    [|discriminate H].
  destruct (required textColumn (b !! "title")) as [t|] eqn:Ht;
    [|discriminate H].
  destruct (required textColumn (b !! "description")) as [d|] eqn:Hd;
    [|discriminate H].
  destruct (nullableText (b !! "estimatedTime")) as [time|] eqn:Htime;
    [|discriminate H].
  destruct (nullableText (b !! "materialsNeeded")) as [mat|] eqn:Hmat;
    [|discriminate H].
  destruct (newKey _ _ _) as [k|]; [|discriminate H].
  destruct (newCreatedAt _ _) as [cr|]; [|discriminate H].
  simpl in H. injection H as <-. simpl.
  repeat split; intros;
    match goal with
    | Hb : b !! _ = _ |- _ => rewrite Hb in *
    end; simpl in *;
    try match goal with
        | Hs : safeInteger _ = true |- _ => rewrite Hs in *
        end; congruence.
Qed.

(** A path parameter that reads as the key of a course can be looked
    up. *)
Lemma lookup_text id table c :
  Course.lookup (keyOfParam id) table = Some c -> hasNul id = false.
Proof.
  destruct (keyOfParam id) as [k|] eqn:Hk; [|discriminate].
  intros _. by eapply keyOfParam_text.
Qed.

(** The key of a drafted row is the one [newKey] reads off the body. *)
Lemma draft_key env s (b : gmap string JsVal) c :
  Course.draft env s b = Some c ->
  newKey (b !! "id") (map Courses.id (courses s)) (courseSeq s)
  = Some (Courses.id c).
Proof.
  unfold Course.draft. intros H.
  destruct (required integerColumn (b !! "userId")); [|discriminate H].
  destruct (required textColumn (b !! "title")); [|discriminate H].
  destruct (required textColumn (b !! "description")); [|discriminate H].
  destruct (nullableText (b !! "estimatedTime")); [|discriminate H].
  destruct (nullableText (b !! "materialsNeeded")); [|discriminate H].
  destruct (newKey _ _ _) as [k|]; [|discriminate H].
  destruct (newCreatedAt _ _); [|discriminate H].
  simpl in H. by injection H as <-.
Qed.

End CourseRoutes.

Section Ownership.
Context `{E : Externals}.

Lemma kept_refl cs : OwnersKept cs cs.
Proof. left. exists []. by rewrite app_nil_r. Qed.

Lemma getUsers_kept req w :
  OwnersKept (courses (store w))
    (courses (store (snd (run [getUsers] req w)))).
Proof. cbn [run]. unfold getUsers. cases; apply kept_refl. Qed.

Lemma postUsers_kept env req w :
  OwnersKept (courses (store w))
    (courses (store (snd (run [postUsers env] req w)))).
Proof.
  cbn [run]. unfold postUsers, asyncHandler, trimOf, bcryptHash,
    User.findOne, User.create.
  cases; simplify_eq/=; apply kept_refl.
Qed.

Lemma getCourses_kept req w :
  OwnersKept (courses (store w))
    (courses (store (snd (run [getCourses] req w)))).
Proof.
  cbn [run]. unfold getCourses, asyncHandler, Course.findAll.
  cases; apply kept_refl.
Qed.

Lemma getCourse_kept id req w :
  OwnersKept (courses (store w))
    (courses (store (snd (run [getCourse id] req w)))).
Proof.
  cbn [run]. unfold getCourse, asyncHandler, Course.findByPk.
  cases; apply kept_refl.
Qed.

Lemma postCourses_kept env req w :
  OwnersKept (courses (store w))
    (courses (store (snd (run [postCourses env] req w)))).
Proof.
  cbn [run]. unfold postCourses, asyncHandler, trimOf, Course.findOne,
    Course.create.
  cases; simplify_eq/=; try apply kept_refl.
  left. eexists. reflexivity.
Qed.

Lemma deleteCourse_kept id req w :
  OwnersKept (courses (store w))
    (courses (store (snd (run [deleteCourse id] req w)))).
Proof.
  cbn [run]. unfold deleteCourse, asyncHandler, Course.findByPk,
    currentUserId, Course.destroy.
  cases; simplify_eq/=; try apply kept_refl.
  right. left. eexists. reflexivity.
Qed.

(** A body without [userId] gives a patch that leaves the owner alone. *)
Lemma readPatch_owner (b : gmap string JsVal) p :
  b !! "userId" = None ->
  Course.readPatch b = Some p ->
  Course.setUserId p = None.
Proof.
  unfold Course.readPatch. intros ->. simpl.
  intros H. repeat case_match; simplify_eq/=. reflexivity.
Qed.

Lemma applyPatch_owner env p c :
  Course.setUserId p = None ->
  Courses.userId (Course.applyPatch env p c) = Courses.userId c.
Proof. intros H. simpl. by rewrite H. Qed.

Lemma putCourse_kept env id req w :
  Req.body req !! "userId" = None ->
  OwnersKept (courses (store w))
    (courses (store (snd (run [putCourse env id] req w)))).
Proof.
  intros Hbody.
  cbn [run]. unfold putCourse, asyncHandler, Course.findByPk,
    currentUserId, Course.update.
  cases; simplify_eq/=; try apply kept_refl.
  right. right. eexists. split; [reflexivity|].
  intros c. simpl. destruct (Course.matches _ c); [|reflexivity].
  apply applyPatch_owner. by eapply readPatch_owner.
Qed.

End Ownership.

Section CourseClaims.
Context `{E : Externals}.

(** C1, as the code has it. An authenticated [POST /courses] request whose
    body passes validation, whose title, a string without U+0000, is once
    trimmed the title of no stored course, and whose row the model and the
    database accept, is answered 201 with the header
    [Location: /course/<id>] of the new row and no body. The row is
    appended to the courses and its columns are the values of the body: its
    [userId] is the one the body supplies (a number a double holds
    exactly), whoever the authenticated user is. Its key, taken to be a
    number a double holds exactly, is the one the body supplies when that
    is a number other than 0, and the next of the sequence when the body
    supplies none or a falsy one. *)
Theorem valid_course_is_created env r w u t c :
  method r = POST ->
  path r = CoursesPath ->
  Authenticated (Req.incoming r) w u ->
  allFailures courseChains (body r) = [] ->
  body r !! "title" = Some (JStr t) ->
  hasNul t = false ->
  (forall c', In c' (courses (store w)) -> Courses.title c' <> trim t) ->
  Course.draft env (store w) (body r) = Some c ->
  Course.violation (store w) c = None ->
  safeInteger (Courses.id c) = true ->
  router env r w
  = (Return (Some {| Res.status := 201;
                     Res.headers :=
                       [("Location",
                         "/course/" ++ showNum (Courses.id c))];
                     Res.body := NoBody |}),
     {| store := {| users := users (store w);
                    courses := courses (store w) ++ [c];
                    userSeq := userSeq (store w);
                    courseSeq := Z.max (courseSeq (store w))
                                   (Courses.id c) |};
        events := events w ++ [SelectFrom TUsers; SelectFrom TCourses;
                               InsertInto TCourses] |})
  /\ (forall n, body r !! "userId" = Some (JNum n) -> safeInteger n = true ->
                Courses.userId c = n)
  /\ Courses.title c = t
  /\ (forall d, body r !! "description" = Some (JStr d) ->
                Courses.description c = d)
  /\ (forall x, body r !! "estimatedTime" = Some (JStr x) ->
                Courses.estimatedTime c = Some x)
  /\ (forall x, body r !! "materialsNeeded" = Some (JStr x) ->
                Courses.materialsNeeded c = Some x)
  /\ (truthy (body r !! "id") = false ->
      Courses.id c = autoKey (map Courses.id (courses (store w)))
                       (courseSeq (store w)))
  /\ (forall k, body r !! "id" = Some (JNum k) -> k <> 0%Z ->
                safeInteger k = true -> Courses.id c = k).
Proof.
  intros Hm Hpath Hauth Hvalid Ht Hnul Hnew Hdraft Hok Hsafe.
  destruct (draft_fields _ _ _ _ Hdraft)
    as (Hu & Htitle & Hd & Htime & _ & Hmat & _).
  pose proof (draft_key _ _ _ _ Hdraft) as Hkey. unfold newKey in Hkey.
  split; [|repeat split; auto].
  - apply (course_created env r w u t c); try assumption.
    + by apply hasNul_trim.
    + destruct (List.find _ _) as [c'|] eqn:Hfind; [|reflexivity].
      apply scan_finds in Hfind. destruct Hfind as [Hin Heq].
      apply String.eqb_eq in Heq. by destruct (Hnew c' Hin).
  - intros Hfalsy. rewrite Hfalsy in Hkey. by injection Hkey as <-.
  - intros k Hk Hk0 Hsafek. rewrite Hk in Hkey. simpl in Hkey.
    rewrite (proj2 (Z.eqb_neq _ _) Hk0), Hsafek in Hkey. simpl in Hkey.
    by injection Hkey as <-.
Qed.

(** C2, as the code has it. A request that is not a [PUT] whose body
    supplies a [userId] keeps the owner of every course: the courses after
    it are the courses before it with rows added at the end, or with rows
    removed, or with rows rewritten and their [userId] left as it was. *)
Theorem owners_are_kept env r w :
  (method r = PUT -> body r !! "userId" = None) ->
  OwnersKept (courses (store w)) (courses (store (snd (router env r w)))).
Proof.
  intros Hput. unfold router.
  destruct (method r) eqn:Hm, (path r) as [| |id] eqn:Hp; cbn [route];
    try apply kept_refl;
    try (match goal with
         | |- context [run (authenticateUser :: ?rest) ?req ?w] =>
             destruct (run_guarded rest req w)
               as [(res & w' & Hs & _ & ->)|(u & w' & Hs & ->)];
             [cbn [snd]; rewrite Hs; apply kept_refl|rewrite <- Hs]
         end);
    rewrite ?run_validate;
    first [ apply getUsers_kept | apply getCourses_kept
          | apply getCourse_kept | apply postUsers_kept
          | apply postCourses_kept | apply deleteCourse_kept
          | apply putCourse_kept; exact (Hput eq_refl) ].
Qed.

Lemma deleteCourse_forbidden id req w u c :
  Req.currentUser req = Some u ->
  Course.lookup (keyOfParam id) (courses (store w)) = Some c ->
  Users.id u <> Courses.userId c ->
  deleteCourse id req w
  = (Return (Done (forbidden "delete")),
     {| store := store w; events := events w ++ [SelectFrom TCourses] |}).
Proof.
  intros Hu Hc Hne.
  unfold deleteCourse, asyncHandler, Course.findByPk, currentUserId. monad.
  rewrite (lookup_text _ _ _ Hc). monad.
  rewrite Hc, Hu. monad.
  by rewrite (proj2 (Z.eqb_neq _ _) Hne).
Qed.

Lemma putCourse_forbidden env id req w u c :
  Req.validationErrors req = [] ->
  Req.currentUser req = Some u ->
  Course.lookup (keyOfParam id) (courses (store w)) = Some c ->
  Users.id u <> Courses.userId c ->
  putCourse env id req w
  = (Return (Done (forbidden "edit")),
     {| store := store w; events := events w ++ [SelectFrom TCourses] |}).
Proof.
  intros Hv Hu Hc Hne.
  unfold putCourse, asyncHandler, Course.findByPk, currentUserId.
  rewrite Hv. rewrite bool_decide_eq_true_2 by reflexivity. cbn [negb].
  monad. rewrite (lookup_text _ _ _ Hc). monad. rewrite Hc, Hu. monad.
  by rewrite (proj2 (Z.eqb_neq _ _) Hne).
Qed.

(** C3, as the code has it. An authenticated [PUT] or [DELETE] on
    [/courses/:id] for a stored course whose [userId] is not the [id] of
    the authenticated user leaves the store unchanged. [DELETE] is answered
    403 with [{error: "Users can only delete their own courses."}]; [PUT] is
    answered 403 with [{error: "Users can only edit their own courses."}]
    when its body passes validation, which is checked first. *)
Theorem only_the_owner_changes_a_course env r w u id c :
  path r = CoursePath id ->
  Authenticated (Req.incoming r) w u ->
  Course.lookup (keyOfParam id) (courses (store w)) = Some c ->
  Users.id u <> Courses.userId c ->
  (method r = DELETE ->
   router env r w
   = (Return (Some {| Res.status := 403;
                      Res.headers := [];
                      Res.body :=
                        Json (JObj [("error",
                          JStr "Users can only delete their own courses.")])
                   |}),
      {| store := store w;
         events := events w ++ [SelectFrom TUsers; SelectFrom TCourses] |}))
  /\ (method r = PUT ->
      allFailures courseChains (body r) = [] ->
      router env r w
      = (Return (Some {| Res.status := 403;
                         Res.headers := [];
                         Res.body :=
                           Json (JObj [("error",
                             JStr "Users can only edit their own courses.")])
                      |}),
         {| store := store w;
            events := events w
                      ++ [SelectFrom TUsers; SelectFrom TCourses] |}))
  /\ (method r = PUT -> store (snd (router env r w)) = store w).
Proof.
  intros Hpath Hauth Hc Hne.
  assert (Hput : method r = PUT ->
                 allFailures courseChains (body r) = [] ->
                 router env r w
                 = (Return (Some (forbidden "edit")),
                    {| store := store w;
                       events := events w ++ [SelectFrom TUsers;
                                              SelectFrom TCourses] |})).
  { intros Hm Hvalid. unfold router. rewrite Hm, Hpath. cbn [route].
    rewrite (run_authenticated _ _ _ _ Hauth), run_validate.
    change (Req.body (Req.setCurrentUser (Req.incoming r) u)) with (body r).
    rewrite Hvalid, addErrors_nil. cbn [run]. unfold bind at 1.
    rewrite (putCourse_forbidden env id _ _ u c); try assumption;
      try reflexivity.
    cbn [store events]. rewrite <- app_assoc. reflexivity. }
  split; [|split].
  - intros Hm. unfold router. rewrite Hm, Hpath. cbn [route].
    rewrite (run_authenticated _ _ _ _ Hauth). cbn [run]. unfold bind at 1.
    rewrite (deleteCourse_forbidden id _ _ u c); try assumption;
      try reflexivity.
    cbn [store events]. rewrite <- app_assoc. reflexivity.
  - exact Hput.
  - intros Hm.
    destruct (allFailures courseChains (body r)) as [|x errs] eqn:Hvalid.
    + by rewrite (Hput Hm eq_refl).
    + unfold router. rewrite Hm, Hpath. cbn [route].
      rewrite (run_authenticated _ _ _ _ Hauth), run_validate.
      change (Req.body (Req.setCurrentUser (Req.incoming r) u))
        with (body r).
      rewrite Hvalid. cbn [run]. unfold bind at 1.
      rewrite putCourse_rejects by discriminate. reflexivity.
Qed.

End CourseClaims.

(** ** Addresses without white space around them stay unique *)

Section TrimmedAddresses.
Context `{E : Externals}.

Lemma draft_address env s (values : gmap string JsVal) e row :
  values !! "emailAddress" = Some (JStr e) ->
  User.draft env s values = Some row ->
  Users.emailAddress row = e.
Proof.
  unfold User.draft. intros He H.
  destruct (required textColumn (values !! "firstName")); [|discriminate H].
  destruct (required textColumn (values !! "lastName")); [|discriminate H].
  rewrite He in H. simpl in H.
  destruct (required textColumn (values !! "password")); [|discriminate H].
  destruct (newKey _ _ _); [|discriminate H].
  destruct (newCreatedAt _ _); [|discriminate H].
  simpl in H. by injection H as <-.
Qed.

(** [POST /users] leaves the users as they were or adds one row, whose
    address is the one of the body and, trimmed, the address of no user
    stored before. *)
Lemma postUsers_users env req w :
  users (store (snd (run [postUsers env] req w))) = users (store w)
  \/ exists e row,
       Req.body req !! "emailAddress" = Some (JStr e)
       /\ userNamed (trim e) w = None
       /\ Users.emailAddress row = e
       /\ users (store (snd (run [postUsers env] req w)))
          = (users (store w) ++ [row])%list.
Proof.
  cbn [run]. unfold postUsers, asyncHandler, trimOf, bcryptHash,
    User.findOne, User.create, userNamed.
  cases; simplify_eq/=; auto.
  right. eexists _, _. split; [reflexivity|]. split; [assumption|].
  split; [|reflexivity].
  match goal with
  | H : User.draft _ _ _ = Some ?row |- _ =>
      eapply (draft_address _ _ _ _ row); [|exact H]
  end.
  destruct (Req.body req !! "firstName"), (Req.body req !! "lastName");
    repeat (rewrite lookup_insert_eq || rewrite lookup_insert_ne by done);
    reflexivity.
Qed.

Lemma other_routes_keep_users env r w :
  (method r = POST -> path r = UsersPath -> False) ->
  users (store (snd (router env r w))) = users (store w).
Proof.
  intros Hnot. unfold router.
  destruct (method r) eqn:Hm, (path r) as [| |id] eqn:Hp; cbn [route];
    try reflexivity; try (by destruct Hnot);
    try match goal with
        | |- context [run (authenticateUser :: ?rest) ?req ?w] =>
            destruct (run_guarded rest req w)
              as [(res & w' & Hs & _ & ->)|(u & w' & Hs & ->)];
            [cbn [snd]; by rewrite Hs|rewrite <- Hs]
        end;
    rewrite ?run_validate; cbn [run];
    unfold getUsers, getCourse, postCourses, putCourse, deleteCourse,
      asyncHandler,
      trimOf, currentUserId, Course.findOne, Course.findByPk, Course.create,
      Course.update, Course.destroy;
    cases; simplify_eq/=; reflexivity.
Qed.

(** While every address that is signed up is free of white space at its
    ends, no two users share an address. *)
Lemma trimmed_addresses_stay_unique env r w :
  NoDup (map Users.emailAddress (users (store w))) ->
  (forall e, body r !! "emailAddress" = Some (JStr e) -> trim e = e) ->
  NoDup (map Users.emailAddress (users (store (snd (router env r w))))).
Proof.
  intros Hnodup Htrim.
  destruct (method r) eqn:Hm, (path r) as [| |id] eqn:Hp;
    try (rewrite other_routes_keep_users;
         [assumption|rewrite Hm, Hp; intros; discriminate]).
  unfold router. rewrite Hm, Hp. cbn [route]. rewrite run_validate.
  destruct (postUsers_users env
              (Req.addErrors (Req.incoming r)
                 (allFailures userChains (Req.body (Req.incoming r)))) w)
    as [->|(e & row & He & Hnone & Hrow & ->)]; [assumption|].
  rewrite map_app. simpl. rewrite Hrow.
  change (Req.body _) with (body r) in He.
  rewrite (Htrim e He) in Hnone.
  apply NoDup_app. split; [assumption|]. split; [|apply NoDup_singleton].
  intros x Hx Hx'. apply list_elem_of_singleton in Hx'. subst x.
  apply list_elem_of_In, in_map_iff in Hx. destruct Hx as (u & Hu & Hin).
  unfold userNamed in Hnone.
  apply (scan_found_nothing _ _ _ _ Hnone) in Hin.
  simpl in Hin. rewrite Hu, String.eqb_refl in Hin. discriminate Hin.
Qed.

End TrimmedAddresses.

(** ** The router on the sample requests *)

Lemma joe_authenticates r w :
  credentials r = Sample.as_ Sample.joe ->
  userNamed "joe@smith.com" w = Some Sample.joe ->
  Authenticated (E := Sample.externals) (Req.incoming r) w Sample.joe.
Proof.
  intros Hc Hu. eexists. split; [exact Hc|]. split; [reflexivity|].
  split; [exact Hu|]. reflexivity.
Qed.

Lemma sally_authenticates r w :
  credentials r = Sample.as_ Sample.sally ->
  userNamed "sally@jones.com" w = Some Sample.sally ->
  Authenticated (E := Sample.externals) (Req.incoming r) w Sample.sally.
Proof.
  intros Hc Hu. eexists. split; [exact Hc|]. split; [reflexivity|].
  split; [exact Hu|]. reflexivity.
Qed.

(** Joe, authenticated, posts a valid course with a new title, the
    [userId] of Sally and 0 as its key: it is created under the next key
    of the sequence, and it is Sally's. *)
Lemma course_for_someone_else :
  Users.id Sample.joe = 1%Z
  /\ fst (router (E := Sample.externals) Sample.env Sample.topologyUnderZero
            Sample.campus)
     = Return (Some (Res.created "/course/2"))
  /\ map Courses.userId
       (courses (store (snd (router (E := Sample.externals) Sample.env
                               Sample.topologyUnderZero Sample.campus))))
     = [1; 2]%Z.
Proof.
  destruct (valid_course_is_created (E := Sample.externals) Sample.env
              Sample.topologyUnderZero Sample.campus Sample.joe "Topology"
              Sample.topology) as [H _].
  - reflexivity.
  - reflexivity.
  - by apply joe_authenticates.
  - reflexivity.
  - reflexivity.
  - reflexivity.
  - intros c' [<-|[]]. discriminate.
  - reflexivity.
  - reflexivity.
  - reflexivity.
  - rewrite H. repeat split.
Defined.

(** C1 fails as stated: Joe, authenticated, posts a course whose title
    is new but without a description; the answer is 400 and nothing is
    stored. *)
Lemma course_without_description_refused :
  Authenticated (E := Sample.externals) (Req.incoming Sample.untold)
    Sample.campus Sample.joe
  /\ (forall c, In c (courses (store Sample.campus)) ->
                Courses.title c <> trim "Topology")
  /\ router (E := Sample.externals) Sample.env Sample.untold Sample.campus
     = (Return (Some (Res.json 400
                        (JObj [("errors",
                                JArr [JStr (provide "description")])]))),
        {| store := store Sample.campus;
           events := [SelectFrom TUsers] |})
  /\ Res.status (Res.json 400
                   (JObj [("errors", JArr [JStr (provide "description")])]))
     <> 201%Z.
Proof.
  split; [by apply joe_authenticates|]. split.
  - intros c [<-|[]]. discriminate.
  - split; [reflexivity|discriminate].
Qed.

(** Joe rewrites title and description of his course: its owner stays. *)
Lemma rewriting_keeps_the_owner :
  OwnersKept (courses (store Sample.campus))
    (courses (store (snd (router (E := Sample.externals) Sample.env
                            Sample.retitle Sample.campus))))
  /\ map Courses.title
       (courses (store (snd (router (E := Sample.externals) Sample.env
                               Sample.retitle Sample.campus))))
     = ["Algebra I"].
Proof.
  split; [|reflexivity].
  apply (owners_are_kept (E := Sample.externals) Sample.env Sample.retitle
           Sample.campus).
  intros _. reflexivity.
Defined.

(** C2 fails as stated: Joe, the owner, puts a body with the [userId]
    of Sally on his course; the answer is 204 and the course is hers. *)
Lemma owner_hands_course_over :
  map Courses.userId (courses (store Sample.campus)) = [1%Z]
  /\ fst (router (E := Sample.externals) Sample.env Sample.handOver
            Sample.campus)
     = Return (Some (Res.sendStatus 204))
  /\ map (fun c => (Courses.id c, Courses.userId c))
       (courses (store (snd (router (E := Sample.externals) Sample.env
                               Sample.handOver Sample.campus))))
     = [(1%Z, 2%Z)]
  /\ ~ OwnersKept (courses (store Sample.campus))
         (courses (store (snd (router (E := Sample.externals) Sample.env
                                 Sample.handOver Sample.campus)))).
Proof.
  split; [reflexivity|]. split; [reflexivity|]. split; [reflexivity|].
  intros [(added & H)|[(keep & H)|(g & H & Hg)]].
  - vm_compute in H. destruct added; discriminate H.
  - vm_compute in H. destruct (keep _); discriminate H.
  - apply (f_equal (map Courses.userId)) in H. rewrite map_map in H.
    rewrite (map_ext _ Courses.userId Hg) in H. discriminate H.
Qed.

(** Sally, authenticated, deletes or validly rewrites the course of Joe:
    403 both times, the store as it was. *)
Lemma sally_is_forbidden :
  router (E := Sample.externals) Sample.env Sample.erase Sample.campus
  = (Return (Some (forbidden "delete")),
     {| store := store Sample.campus;
        events := [SelectFrom TUsers; SelectFrom TCourses] |})
  /\ router (E := Sample.externals) Sample.env
       (Sample.intrude (Sample.course "Mine" "Now" 2)) Sample.campus
     = (Return (Some (forbidden "edit")),
        {| store := store Sample.campus;
           events := [SelectFrom TUsers; SelectFrom TCourses] |}).
Proof.
  split.
  - destruct (only_the_owner_changes_a_course (E := Sample.externals)
                Sample.env Sample.erase Sample.campus Sample.sally "1"
                Sample.algebra) as (H & _ & _).
    + reflexivity.
    + by apply sally_authenticates.
    + reflexivity.
    + discriminate.
    + exact (H eq_refl).
  - destruct (only_the_owner_changes_a_course (E := Sample.externals)
                Sample.env (Sample.intrude (Sample.course "Mine" "Now" 2))
                Sample.campus Sample.sally "1" Sample.algebra)
      as (_ & H & _).
    + reflexivity.
    + by apply sally_authenticates.
    + reflexivity.
    + discriminate.
    + exact (H eq_refl eq_refl).
Defined.

(** C3 fails as stated: Sally, authenticated, puts an empty body on the
    course of Joe; the answer is the 400 of validation, not 403. *)
Lemma intruder_with_invalid_body_gets_400 :
  Authenticated (E := Sample.externals)
    (Req.incoming (Sample.intrude ∅)) Sample.campus Sample.sally
  /\ Course.lookup (keyOfParam (Externals := Sample.externals) "1")
       (courses (store Sample.campus)) = Some Sample.algebra
  /\ Users.id Sample.sally <> Courses.userId Sample.algebra
  /\ router (E := Sample.externals) Sample.env (Sample.intrude ∅)
       Sample.campus
     = (Return (Some (Res.json 400
                        (JObj [("errors",
                                JArr [JStr (provide "title");
                                      JStr (provide "description")])]))),
        {| store := store Sample.campus; events := [SelectFrom TUsers] |})
  /\ Res.status (Res.json 400
                   (JObj [("errors",
                           JArr [JStr (provide "title");
                                 JStr (provide "description")])]))
     <> 403%Z.
Proof.
  split; [by apply sally_authenticates|].
  split; [reflexivity|]. split; [discriminate|].
  split; [reflexivity|discriminate].
Qed.

(** A request without credentials on a guarded route: 401, and the cause
    on the console. *)
Lemma anonymous_is_denied :
  exists reads,
    run [authenticateUser (E := Sample.externals); getUsers]
      (Req.incoming Sample.anonymous) Sample.campus
    = (Return (Some {| Res.status := 401;
                       Res.headers := [];
                       Res.body :=
                         Json (JObj [("message", JStr "Access Denied")]) |}),
       {| store := store Sample.campus;
          events := (events Sample.campus ++ reads)
                    ++ [Warn "Auth header not found"] |})
    /\ Forall (fun e => isRead e = true) reads.
Proof.
  apply (access_denied_whatever_the_cause (E := Sample.externals)
           (Req.incoming Sample.anonymous) Sample.campus
           "Auth header not found" [getUsers]).
  apply MissingHeader. reflexivity.
Defined.

(** C4 fails as stated: no user is stored under the garbled name, and the
    request is answered 500 with the error of the database, not 401; the
    console is told nothing. *)
Lemma garbled_name_is_a_500 :
  credentials Sample.garbled
  = Some {| name := Sample.garbledName; pass := "pw" |}
  /\ (forall u, In u (users (store Sample.campus)) ->
                Users.emailAddress u <> Sample.garbledName)
  /\ router (E := Sample.externals) Sample.env Sample.garbled Sample.campus
     = (Return (Some {| Res.status := 500;
                        Res.headers := [];
                        Res.body := ErrorBody SequelizeDatabaseError |}),
        {| store := store Sample.campus; events := [SelectFrom TUsers] |})
  /\ Res.status {| Res.status := 500;
                   Res.headers := [];
                   Res.body := ErrorBody SequelizeDatabaseError |}
     <> 401%Z.
Proof.
  split; [reflexivity|]. split.
  - intros u [<-|[<-|[]]]; discriminate.
  - split; [reflexivity|discriminate].
Qed.

(** C8 fails as stated: without credentials the middleware sends the
    database no read at all. *)
Lemma anonymous_request_reads_nothing :
  events Sample.campus = []
  /\ events (snd (authenticateUser (E := Sample.externals)
                    (Req.incoming Sample.anonymous) Sample.campus))
     = [Warn "Auth header not found"]
  /\ length (List.filter isRead
               (events (snd (authenticateUser (E := Sample.externals)
                               (Req.incoming Sample.anonymous)
                               Sample.campus))))
     <> 1%nat.
Proof. split; [reflexivity|]. split; [reflexivity|discriminate]. Qed.





(** The sample validator accepts the spaced address: it is stored twice. *)
Lemma two_users_one_address :
  map Users.emailAddress
    (users (store (snd (router (E := Sample.externals) Sample.env
                          (Sample.postUser
                             (Sample.signup "A" "B" Sample.spacedEmail "pw"))
                          (snd (router (E := Sample.externals) Sample.env
                                  (Sample.postUser
                                     (Sample.signup "A" "B"
                                        Sample.spacedEmail "pw"))
                                  Sample.empty))))))
  = [Sample.spacedEmail; Sample.spacedEmail].
Proof.
  apply (spaced_email_is_stored_twice (E := Sample.externals) Sample.env).
  reflexivity.
Defined.

(** Joe posts an empty course: both failures are reported, in order. *)
Lemma blank_course_is_rejected :
  router (E := Sample.externals) Sample.env Sample.blank Sample.campus
  = (Return (Some (Res.json 400
                     (JObj [("errors",
                             JArr [JStr (provide "title");
                                   JStr (provide "description")])]))),
     {| store := store Sample.campus; events := [SelectFrom TUsers] |}).
Proof.
  destruct (invalid_body_is_rejected (E := Sample.externals) Sample.env
              Sample.blank Sample.campus courseChains) as (H & _ & _).
  - reflexivity.
  - discriminate.
  - intros _. exists Sample.joe. by apply joe_authenticates.
  - rewrite H. reflexivity.
Defined.

(** C9 fails as stated: when Joe's empty course is rejected, the
    database has already been read, by the authentication middleware. *)
Lemma rejection_follows_a_read :
  allFailures courseChains (body Sample.blank) <> []
  /\ events Sample.campus = []
  /\ fst (router (E := Sample.externals) Sample.env Sample.blank
            Sample.campus)
     = Return (Some (Res.json 400
                       (JObj [("errors",
                               JArr [JStr (provide "title");
                                     JStr (provide "description")])])))
  /\ List.filter isQuery
       (events (snd (router (E := Sample.externals) Sample.env Sample.blank
                       Sample.campus)))
     = [SelectFrom TUsers].
Proof.
  split; [discriminate|]. split; [reflexivity|]. split; reflexivity.
Qed.

(** Joe asks who he is. *)
Lemma joe_sees_four_fields :
  fst (router (E := Sample.externals) Sample.env Sample.whoami Sample.campus)
  = Return (Some (Res.json 200
                    (JObj [("id", JNum 1); ("firstName", JStr "Joe");
                           ("lastName", JStr "Smith");
                           ("emailAddress", JStr "joe@smith.com")]))).
Proof.
  destruct (current_user_has_four_fields (E := Sample.externals) Sample.env
              Sample.whoami Sample.campus Sample.joe) as (v & H & -> & _).
  - reflexivity.
  - reflexivity.
  - by apply joe_authenticates.
  - exact H.
Defined.

(** * Further properties of the router *)

(** ** Reading *)

Section Reading.
Context `{E : Externals}.

Lemma getCourses_run req w :
  run [getCourses] req w
  = (Return (Some (Res.json 200
                     (JArr (map (fun c => JObj (courseAttributes c))
                              (byKey Courses.id (courses (store w))))))),
     {| store := store w; events := events w ++ [SelectFrom TCourses] |}).
Proof.
  cbn [run]. unfold getCourses, asyncHandler, Course.findAll. monad.
  reflexivity.
Qed.

Lemma getCourse_run id req w :
  run [getCourse id] req w
  = (Return (Some (if hasNul id then databaseError
                   else Res.json 200
                          match Course.lookup (keyOfParam id)
                                  (courses (store w))
                          with
                          | Some c => courseJson c
                          | None => JNull
                          end)),
     {| store := store w; events := events w ++ [SelectFrom TCourses] |}).
Proof.
  cbn [run]. unfold getCourse, asyncHandler, Course.findByPk. monad.
  destruct (hasNul id); reflexivity.
Qed.

(** X1. [GET /courses] needs no credentials: whatever the request carries,
    it is answered 200 with one object per stored course, in the order of
    the keys, in which the table is scanned, whatever the order in which
    the rows were stored. Each object holds [id], [userId], [title],
    [description], [estimatedTime] and [materialsNeeded] ([null] for an
    absent optional column) and no timestamp. The store is unchanged; the
    one statement is a read of the courses. *)
Theorem courses_are_listed env r w :
  method r = GET ->
  path r = CoursesPath ->
  exists listed,
    router env r w
    = (Return
         (Some {| Res.status := 200;
                  Res.headers := [];
                  Res.body :=
                    Json (JArr
                      (map (fun c =>
                              JObj [("id", JNum (Courses.id c));
                                    ("userId", JNum (Courses.userId c));
                                    ("title", JStr (Courses.title c));
                                    ("description",
                                     JStr (Courses.description c));
                                    ("estimatedTime",
                                     match Courses.estimatedTime c with
                                     | Some x => JStr x
                                     | None => JNull
                                     end);
                                    ("materialsNeeded",
                                     match Courses.materialsNeeded c with
                                     | Some x => JStr x
                                     | None => JNull
                                     end)])
                         listed)) |}),
       {| store := store w; events := events w ++ [SelectFrom TCourses] |})
    /\ listed = byKey Courses.id (courses (store w))
    /\ Permutation (courses (store w)) listed
    /\ StronglySorted (fun a b => Courses.id a <= Courses.id b)%Z listed.
Proof.
  intros Hm Hp. exists (byKey Courses.id (courses (store w))).
  split; [|split; [reflexivity|]].
  - unfold router. rewrite Hm, Hp. cbn [route]. apply getCourses_run.
  - split; [apply byKey_Permutation|apply byKey_sorted].
Qed.

(** X2. [GET /courses/:id] needs no credentials and never answers 404.
    When the parameter holds U+0000 the look-up fails and the answer is
    500 with the error of the database. Otherwise it is answered 200 with
    the stored course whose key the parameter reads as, all eight columns
    with the two timestamps, and 200 with [null] when there is no such
    course or the parameter reads as no key. The store is unchanged. *)
Theorem course_is_fetched_or_null env r w id :
  method r = GET ->
  path r = CoursePath id ->
  router env r w
  = (Return
       (Some
          (if hasNul id
           then {| Res.status := 500;
                   Res.headers := [];
                   Res.body := ErrorBody SequelizeDatabaseError |}
           else
             {| Res.status := 200;
                Res.headers := [];
                Res.body :=
                  Json
                    match
                      match keyOfParam id with
                      | Some k =>
                          List.find (fun c => Courses.id c =? k)%Z
                            (courses (store w))
                      | None => None
                      end
                    with
                    | Some c =>
                        JObj [("id", JNum (Courses.id c));
                              ("userId", JNum (Courses.userId c));
                              ("title", JStr (Courses.title c));
                              ("description", JStr (Courses.description c));
                              ("estimatedTime",
                               match Courses.estimatedTime c with
                               | Some x => JStr x
                               | None => JNull
                               end);
                              ("materialsNeeded",
                               match Courses.materialsNeeded c with
                               | Some x => JStr x
                               | None => JNull
                               end);
                              ("createdAt",
                               JStr (toISOString (Courses.createdAt c)));
                              ("updatedAt",
                               JStr (toISOString (Courses.updatedAt c)))]
                    | None => JNull
                    end |})),
     {| store := store w; events := events w ++ [SelectFrom TCourses] |}).
Proof.
  intros Hm Hp. unfold router. rewrite Hm, Hp. cbn [route].
  rewrite getCourse_run. destruct (hasNul id); [reflexivity|].
  unfold Course.lookup.
  destruct (keyOfParam id) as [k|]; [|reflexivity].
  destruct (List.find _ _); reflexivity.
Qed.

(** The answer of [GET /users] is read off the store alone. *)
Lemma whoami_run rest req w :
  rest = [getUsers] ->
  run (authenticateUser :: rest) req w
  = (Return
       (Some
          match Req.credentials req with
          | Some c =>
              if hasNul (name c) then databaseError
              else
                match userNamed (name c) w with
                | Some u =>
                    if compareSync (pass c) (Users.password u)
                    then Res.json 200
                           (JObj [("id", JNum (Users.id u));
                                  ("firstName", JStr (Users.firstName u));
                                  ("lastName", JStr (Users.lastName u));
                                  ("emailAddress",
                                   JStr (Users.emailAddress u))])
                    else accessDenied
                | None => accessDenied
                end
          | None => accessDenied
          end),
     snd (run (authenticateUser :: rest) req w))
  /\ store (snd (run (authenticateUser :: rest) req w)) = store w.
Proof.
  intros ->. cbn [run]. unfold authenticateUser, asyncHandler, User.findOne,
    getUsers, userNamed.
  cases; simplify_eq/=; split; reflexivity.
Qed.

(** X3. A [GET] request changes nothing in the store, and asked again
    right after, it gets the same answer. *)
Theorem get_is_repeatable env env' r w :
  method r = GET ->
  store (snd (router env r w)) = store w
  /\ fst (router env' r (snd (router env r w))) = fst (router env r w).
Proof.
  intros Hm. unfold router. rewrite Hm.
  destruct (path r) as [| |id]; cbn [route].
  - destruct (whoami_run [getUsers] (Req.incoming r) w eq_refl) as [H1 Hs].
    split; [exact Hs|].
    destruct (whoami_run [getUsers] (Req.incoming r)
                (snd (run [authenticateUser; getUsers] (Req.incoming r) w))
                eq_refl) as [H2 _].
    rewrite H2, H1. cbn [fst snd]. unfold userNamed. rewrite Hs.
    reflexivity.
  - rewrite !getCourses_run. split; reflexivity.
  - rewrite !getCourse_run. split; reflexivity.
Qed.

End Reading.

(** ** Writing courses *)

Section Writing.
Context `{E : Externals}.

(** An authenticated request with a valid body reaches the handler of its
    course route with the user attached and no failure recorded. *)
Lemma course_route_run h r w u :
  Authenticated (Req.incoming r) w u ->
  allFailures courseChains (body r) = [] ->
  run (authenticateUser :: map validate courseChains ++ [h])
    (Req.incoming r) w
  = run [h] (Req.setCurrentUser (Req.incoming r) u)
      {| store := store w; events := events w ++ [SelectFrom TUsers] |}.
Proof.
  intros Hauth Hvalid.
  rewrite (run_authenticated _ _ _ _ Hauth), run_validate.
  change (Req.body (Req.setCurrentUser (Req.incoming r) u)) with (body r).
  by rewrite Hvalid, addErrors_nil.
Qed.

Lemma lookup_key id (table : list Courses.row) c :
  Course.lookup (keyOfParam id) table = Some c ->
  keyOfParam id = Some (Courses.id c) /\ In c table.
Proof.
  unfold Course.lookup. destruct (keyOfParam id) as [k|]; [|discriminate].
  intros H. apply find_some in H. destruct H as [Hin Hk].
  apply Z.eqb_eq in Hk. by subst k.
Qed.

Lemma putCourse_missing env id req w :
  Req.validationErrors req = [] ->
  Course.lookup (keyOfParam id) (courses (store w)) = None ->
  putCourse env id req w
  = (Return (Done (if hasNul id then databaseError else notFound id)),
     {| store := store w; events := events w ++ [SelectFrom TCourses] |}).
Proof.
  intros Hv Hc. unfold putCourse, asyncHandler, Course.findByPk.
  rewrite Hv. rewrite bool_decide_eq_true_2 by reflexivity. cbn [negb].
  monad. destruct (hasNul id); [reflexivity|]. monad.
  rewrite Hc. reflexivity.
Qed.

Lemma deleteCourse_missing id req w :
  Course.lookup (keyOfParam id) (courses (store w)) = None ->
  deleteCourse id req w
  = (Return (Done (if hasNul id then databaseError else notFound id)),
     {| store := store w; events := events w ++ [SelectFrom TCourses] |}).
Proof.
  intros Hc. unfold deleteCourse, asyncHandler, Course.findByPk.
  monad. destruct (hasNul id); [reflexivity|]. monad.
  rewrite Hc. reflexivity.
Qed.

(** X4. An authenticated [PUT] (with a valid body) or [DELETE] on
    [/courses/:id] when no stored course has the key the parameter reads
    as is answered 400, not 404, with
    [{error: "Course with id: <id> not found."}], [<id>] being the text of
    the parameter as sent; when the parameter holds U+0000 the look-up
    fails and the answer is 500 with the error of the database. The store
    is unchanged either way. *)
Theorem missing_course_is_a_400 env r w u id :
  path r = CoursePath id ->
  Authenticated (Req.incoming r) w u ->
  Course.lookup (keyOfParam id) (courses (store w)) = None ->
  method r = DELETE
  \/ (method r = PUT /\ allFailures courseChains (body r) = []) ->
  router env r w
  = (Return
       (Some
          (if hasNul id
           then {| Res.status := 500;
                   Res.headers := [];
                   Res.body := ErrorBody SequelizeDatabaseError |}
           else {| Res.status := 400;
                   Res.headers := [];
                   Res.body :=
                     Json (JObj [("error",
                                  JStr ("Course with id: " ++ id
                                        ++ " not found."))]) |})),
     {| store := store w;
        events := events w ++ [SelectFrom TUsers; SelectFrom TCourses] |}).
Proof.
  intros Hp Hauth Hc [Hm|[Hm Hvalid]]; unfold router;
    rewrite Hm, Hp; cbn [route].
  - rewrite (run_authenticated _ _ _ _ Hauth). cbn [run]. unfold bind at 1.
    rewrite deleteCourse_missing by exact Hc.
    cbn [store events]. rewrite <- app_assoc.
    destruct (hasNul id); reflexivity.
  - rewrite (course_route_run _ _ _ _ Hauth Hvalid). cbn [run].
    unfold bind at 1.
    rewrite putCourse_missing; [|reflexivity|exact Hc].
    cbn [store events]. rewrite <- app_assoc.
    destruct (hasNul id); reflexivity.
Qed.

Lemma lookup_after_delete k (table : list Courses.row) :
  Course.lookup (Some k)
    (List.filter (fun c => negb (Courses.id c =? k)%Z) table) = None.
Proof.
  unfold Course.lookup.
  destruct (List.find _ _) as [c|] eqn:H; [|reflexivity].
  apply find_some in H. destruct H as [Hin Hk].
  apply filter_In in Hin. destruct Hin as [_ Hn].
  rewrite Hk in Hn. discriminate Hn.
Qed.

(** X5. The owner's [DELETE /courses/:id] is answered 204 without a body;
    the rows with that key are removed from the courses, every other row
    and every user is kept, and a [GET /courses/:id] that follows is
    answered [null]. *)
Theorem owner_deletes_the_course env r w u id c :
  method r = DELETE ->
  path r = CoursePath id ->
  Authenticated (Req.incoming r) w u ->
  Course.lookup (keyOfParam id) (courses (store w)) = Some c ->
  Users.id u = Courses.userId c ->
  router env r w
  = (Return (Some {| Res.status := 204; Res.headers := [];
                     Res.body := NoBody |}),
     {| store :=
          {| users := users (store w);
             courses :=
               List.filter
                 (fun c' => negb (Courses.id c' =? Courses.id c)%Z)
                 (courses (store w));
             userSeq := userSeq (store w);
             courseSeq := courseSeq (store w) |};
        events := events w ++ [SelectFrom TUsers; SelectFrom TCourses;
                               DeleteFrom TCourses] |})
  /\ forall env' r',
       method r' = GET ->
       path r' = CoursePath id ->
       fst (router env' r' (snd (router env r w)))
       = Return (Some (Res.json 200 JNull)).
Proof.
  intros Hm Hp Hauth Hc Hown.
  destruct (lookup_key _ _ _ Hc) as [Hk _].
  assert (Hrun : router env r w
                 = (Return (Some (Res.sendStatus 204)),
                    {| store :=
                         {| users := users (store w);
                            courses :=
                              List.filter
                                (fun c' =>
                                   negb (Courses.id c' =? Courses.id c)%Z)
                                (courses (store w));
                            userSeq := userSeq (store w);
                            courseSeq := courseSeq (store w) |};
                       events := events w
                                 ++ [SelectFrom TUsers; SelectFrom TCourses;
                                     DeleteFrom TCourses] |})).
  { unfold router. rewrite Hm, Hp. cbn [route].
    rewrite (run_authenticated _ _ _ _ Hauth). cbn [run]. unfold bind at 1.
    unfold deleteCourse, asyncHandler, Course.findByPk, currentUserId,
      Course.destroy. monad. rewrite (lookup_text _ _ _ Hc). monad.
    rewrite Hc.
    cbn [Req.currentUser Req.setCurrentUser]. monad.
    rewrite Hown, Z.eqb_refl. monad. rewrite Hk.
    cbn [Course.matches]. rewrite <- !app_assoc. reflexivity. }
  split; [exact Hrun|].
  intros env' r' Hm' Hp'. rewrite Hrun. cbn [snd].
  unfold router. rewrite Hm', Hp'. cbn [route]. rewrite getCourse_run.
  rewrite (lookup_text _ _ _ Hc).
  cbn [fst store courses]. rewrite Hk, lookup_after_delete. reflexivity.
Qed.

Lemma find_map_same {A} (p : A -> bool) (g : A -> A) (l : list A) :
  (forall x, p (g x) = p x) ->
  List.find p (map g l) = option_map g (List.find p l).
Proof.
  intros Hp. induction l as [|x l IH]; simpl; [reflexivity|].
  rewrite Hp. destruct (p x); [reflexivity|exact IH].
Qed.

(** The owner's [PUT] of a title and a description. *)
Lemma owner_put_run env r w u id c t d :
  method r = PUT ->
  path r = CoursePath id ->
  Authenticated (Req.incoming r) w u ->
  Course.lookup (keyOfParam id) (courses (store w)) = Some c ->
  Users.id u = Courses.userId c ->
  body r !! "title" = Some (JStr t) -> t <> "" ->
  body r !! "description" = Some (JStr d) -> d <> "" ->
  body r !! "id" = None ->
  body r !! "userId" = None ->
  body r !! "estimatedTime" = None ->
  body r !! "materialsNeeded" = None ->
  body r !! "createdAt" = None ->
  router env r w
  = (Return (Some (Res.sendStatus 204)),
     {| store :=
          {| users := users (store w);
             courses :=
               map (fun c' => if (Courses.id c' =? Courses.id c)%Z
                              then rewritten env t d c' else c')
                 (courses (store w));
             userSeq := userSeq (store w);
             courseSeq := courseSeq (store w) |};
        events := events w ++ [SelectFrom TUsers; SelectFrom TCourses;
                               UpdateIn TCourses] |}).
Proof.
  intros Hm Hp Hauth Hc Hown Ht Ht' Hd Hd' Hid Huid Htime Hmat Hcr.
  destruct (lookup_key _ _ _ Hc) as [Hk _].
  assert (Hvalid : allFailures courseChains (body r) = []).
  { unfold allFailures, courseChains, failures. simpl.
    rewrite Ht, Hd. by rewrite !nonempty_truthy. }
  assert (Hpatch : Course.readPatch (body r)
                   = Some {| Course.setId := None;
                             Course.setUserId := None;
                             Course.setTitle := Some t;
                             Course.setDescription := Some d;
                             Course.setEstimatedTime := None;
                             Course.setMaterialsNeeded := None;
                             Course.setCreatedAt := None |}).
  { unfold Course.readPatch. by rewrite Hid, Huid, Ht, Hd, Htime, Hmat, Hcr. }
  unfold router. rewrite Hm, Hp. cbn [route].
  rewrite (course_route_run _ _ _ _ Hauth Hvalid). cbn [run].
  unfold bind at 1.
  unfold putCourse, asyncHandler, Course.findByPk, currentUserId,
    Course.update.
  cbn [Req.validationErrors Req.incoming Req.setCurrentUser].
  rewrite bool_decide_eq_true_2 by reflexivity. cbn [negb].
  monad. rewrite (lookup_text _ _ _ Hc). monad.
  rewrite Hc. cbn [Req.currentUser Req.setCurrentUser]. monad.
  rewrite Hown, Z.eqb_refl.
  change (Req.body (Req.setCurrentUser (Req.incoming r) u)) with (body r).
  rewrite Hpatch. monad. rewrite Hk.
  unfold Course.keyClash, Course.ownerMissing, Course.keyTooLarge.
  cbn [Course.setId Course.setUserId Course.matches orb].
  rewrite <- !app_assoc. reflexivity.
Qed.

(** X6. The owner's [PUT /courses/:id] with a body that holds a title and
    a description, both non-empty strings, and no other attribute of the
    model, is answered 204 without a body. The rows with that key get the
    new title and description and the rest of their columns, their
    [userId] among them, is kept; the other rows are untouched, also when
    one of them already has the new title. A [GET /courses/:id] that
    follows is answered with the rewritten course. *)
Theorem owner_rewrites_the_course env r w u id c t d :
  method r = PUT ->
  path r = CoursePath id ->
  Authenticated (Req.incoming r) w u ->
  Course.lookup (keyOfParam id) (courses (store w)) = Some c ->
  Users.id u = Courses.userId c ->
  body r !! "title" = Some (JStr t) -> t <> "" ->
  body r !! "description" = Some (JStr d) -> d <> "" ->
  body r !! "id" = None ->
  body r !! "userId" = None ->
  body r !! "estimatedTime" = None ->
  body r !! "materialsNeeded" = None ->
  body r !! "createdAt" = None ->
  router env r w
  = (Return (Some {| Res.status := 204; Res.headers := [];
                     Res.body := NoBody |}),
     {| store :=
          {| users := users (store w);
             courses :=
               map (fun c' => if (Courses.id c' =? Courses.id c)%Z
                              then rewritten env t d c' else c')
                 (courses (store w));
             userSeq := userSeq (store w);
             courseSeq := courseSeq (store w) |};
        events := events w ++ [SelectFrom TUsers; SelectFrom TCourses;
                               UpdateIn TCourses] |})
  /\ forall env' r',
       method r' = GET ->
       path r' = CoursePath id ->
       fst (router env' r' (snd (router env r w)))
       = Return (Some (Res.json 200 (courseJson (rewritten env t d c)))).
Proof.
  intros Hm Hp Hauth Hc Hown Ht Ht' Hd Hd' Hid Huid Htime Hmat Hcr.
  destruct (lookup_key _ _ _ Hc) as [Hk _].
  pose proof (owner_put_run env r w u id c t d Hm Hp Hauth Hc Hown Ht Ht'
                Hd Hd' Hid Huid Htime Hmat Hcr) as Hrun.
  split; [exact Hrun|].
  intros env' r' Hm' Hp'. rewrite Hrun. cbn [snd].
  unfold router. rewrite Hm', Hp'. cbn [route]. rewrite getCourse_run.
  rewrite (lookup_text _ _ _ Hc).
  cbn [fst store courses]. rewrite Hk. unfold Course.lookup in *.
  rewrite Hk in Hc. rewrite find_map_same.
  - rewrite Hc. cbn [option_map].
    apply find_some in Hc. destruct Hc as [_ Hc]. rewrite Hc. reflexivity.
  - intros x. destruct (Courses.id x =? Courses.id c)%Z eqn:Hx;
      cbn [rewritten Courses.id]; by rewrite Hx.
Qed.

(** X21. [PUT /courses/:id] does not check the title against the other
    courses: when the owner gives a course the title of another stored
    course, the request is answered 204 all the same and the two courses,
    with their different keys, then have the same title. *)
Theorem put_can_duplicate_a_title env r w u id c t d c2 :
  method r = PUT ->
  path r = CoursePath id ->
  Authenticated (Req.incoming r) w u ->
  Course.lookup (keyOfParam id) (courses (store w)) = Some c ->
  Users.id u = Courses.userId c ->
  body r !! "title" = Some (JStr t) -> t <> "" ->
  body r !! "description" = Some (JStr d) -> d <> "" ->
  body r !! "id" = None ->
  body r !! "userId" = None ->
  body r !! "estimatedTime" = None ->
  body r !! "materialsNeeded" = None ->
  body r !! "createdAt" = None ->
  In c2 (courses (store w)) ->
  Courses.id c2 <> Courses.id c ->
  Courses.title c2 = t ->
  fst (router env r w)
  = Return (Some {| Res.status := 204; Res.headers := [];
                    Res.body := NoBody |})
  /\ In c2 (courses (store (snd (router env r w))))
  /\ In (rewritten env t d c) (courses (store (snd (router env r w))))
  /\ Courses.title (rewritten env t d c) = Courses.title c2
  /\ Courses.id (rewritten env t d c) <> Courses.id c2.
Proof.
  intros Hm Hp Hauth Hc Hown Ht Ht' Hd Hd' Hid Huid Htime Hmat Hcr
    Hin2 Hid2 Htitle2.
  destruct (lookup_key _ _ _ Hc) as [_ Hin].
  rewrite (owner_put_run env r w u id c t d Hm Hp Hauth Hc Hown Ht Ht'
             Hd Hd' Hid Huid Htime Hmat Hcr).
  cbn [fst snd store courses].
  split; [reflexivity|]. split; [|split; [|split]].
  - apply in_map_iff. exists c2. split; [|exact Hin2].
    by rewrite (proj2 (Z.eqb_neq _ _) Hid2).
  - apply in_map_iff. exists c. split; [|exact Hin].
    by rewrite Z.eqb_refl.
  - by rewrite Htitle2.
  - cbn [rewritten Courses.id]. congruence.
Qed.

(** X7. An authenticated [POST /courses] with a valid body whose title,
    once trimmed, is exactly the title of a stored course is answered 400
    with [{error: 'Course with title "<title>" already exists.'}], the
    title in the message being the one sent, untrimmed; when the title
    holds U+0000 the look-up fails instead and the answer is 500 with the
    error of the database. Nothing is stored either way. *)
Theorem taken_title_is_refused env r w u t c :
  method r = POST ->
  path r = CoursesPath ->
  Authenticated (Req.incoming r) w u ->
  allFailures courseChains (body r) = [] ->
  body r !! "title" = Some (JStr t) ->
  In c (courses (store w)) ->
  Courses.title c = trim t ->
  router env r w
  = (Return
       (Some
          (if hasNul (trim t)
           then {| Res.status := 500;
                   Res.headers := [];
                   Res.body := ErrorBody SequelizeDatabaseError |}
           else {| Res.status := 400;
                   Res.headers := [];
                   Res.body :=
                     Json (JObj [("error",
                                  JStr ("Course with title " ++ quoted t
                                        ++ " already exists."))]) |})),
     {| store := store w;
        events := events w ++ [SelectFrom TUsers; SelectFrom TCourses] |}).
Proof.
  intros Hm Hp Hauth Hvalid Ht Hin Htitle.
  unfold router. rewrite Hm, Hp. cbn [route].
  rewrite (course_route_run _ _ _ _ Hauth Hvalid). cbn [run].
  unfold bind at 1. unfold postCourses, asyncHandler, trimOf, Course.findOne.
  cbn [Req.validationErrors Req.incoming Req.setCurrentUser].
  rewrite bool_decide_eq_true_2 by reflexivity. cbn [negb].
  change (Req.body (Req.setCurrentUser (Req.incoming r) u)) with (body r).
  rewrite Ht. monad.
  destruct (hasNul (trim t)).
  { monad. rewrite <- !app_assoc. reflexivity. }
  monad.
  destruct (List.find _ _) as [c'|] eqn:Hfind.
  - cbn [toString jsString]. rewrite <- !app_assoc. reflexivity.
  - apply (scan_found_nothing _ _ _ _ Hfind) in Hin. simpl in Hin.
    rewrite Htitle, String.eqb_refl in Hin. discriminate Hin.
Qed.


(** X9. A title that is truthy but not a string passes the validation of
    [POST /courses]; [req.body.title.trim()] then throws and the
    authenticated request is answered 500 with the [TypeError]. Nothing is
    stored and the courses are not even read. *)
Theorem title_must_be_a_string env r w u v :
  method r = POST ->
  path r = CoursesPath ->
  Authenticated (Req.incoming r) w u ->
  allFailures courseChains (body r) = [] ->
  body r !! "title" = Some v ->
  (forall s, v <> JStr s) ->
  router env r w
  = (Return (Some {| Res.status := 500;
                     Res.headers := [];
                     Res.body := ErrorBody TypeError |}),
     {| store := store w; events := events w ++ [SelectFrom TUsers] |}).
Proof.
  intros Hm Hp Hauth Hvalid Ht Hv.
  unfold router. rewrite Hm, Hp. cbn [route].
  rewrite (course_route_run _ _ _ _ Hauth Hvalid). cbn [run].
  unfold bind at 1. unfold postCourses, asyncHandler, trimOf.
  cbn [Req.validationErrors Req.incoming Req.setCurrentUser].
  rewrite bool_decide_eq_true_2 by reflexivity. cbn [negb].
  change (Req.body (Req.setCurrentUser (Req.incoming r) u)) with (body r).
  rewrite Ht. monad.
  destruct v; try reflexivity. by destruct (Hv s).
Qed.

End Writing.

(** ** Creating courses *)

Section Creating.
Context `{E : Externals}.

Lemma nullableText_text (o : option string) :
  nullableText (JStr <$> o) = Some o.
Proof. destruct o; reflexivity. Qed.

Lemma title_is_new (t : string) (table : list Courses.row) :
  (forall c, In c table -> Courses.title c <> trim t) ->
  List.find (fun c => String.eqb (Courses.title c) (trim t))
    (byKey Courses.id table) = None.
Proof.
  intros Hnew. apply scan_finds_nothing. intros c Hin.
  apply String.eqb_neq. by apply Hnew.
Qed.

(** X10. An authenticated [POST /courses] whose body holds non-empty
    strings as title and description, the title without U+0000, a number
    that a double holds exactly as [userId], optional strings as
    [estimatedTime] and [materialsNeeded] and neither [id] nor [createdAt],
    whose trimmed title is new and whose [userId] is the key of a stored
    user where the database enforces the foreign key, made while the next
    key of the sequence is a number a double holds exactly, is always
    created: 201,
    [Location: /course/<key>] with the next key of the sequence, which no
    stored course has, and the row appended with the body's values and the
    timestamps of the model. *)
Theorem plain_course_is_created env r w u n t d time materials :
  method r = POST ->
  path r = CoursesPath ->
  Authenticated (Req.incoming r) w u ->
  body r !! "title" = Some (JStr t) -> t <> "" -> hasNul t = false ->
  body r !! "description" = Some (JStr d) -> d <> "" ->
  body r !! "userId" = Some (JNum n) -> safeInteger n = true ->
  body r !! "estimatedTime" = JStr <$> time ->
  body r !! "materialsNeeded" = JStr <$> materials ->
  body r !! "id" = None ->
  body r !! "createdAt" = None ->
  (foreignKeys = true -> In n (map Users.id (users (store w)))) ->
  (forall c, In c (courses (store w)) -> Courses.title c <> trim t) ->
  safeInteger (autoKey (map Courses.id (courses (store w)))
                 (courseSeq (store w))) = true ->
  let c := posted env (store w) n t d time materials in
  router env r w
  = (Return (Some {| Res.status := 201;
                     Res.headers :=
                       [("Location",
                         "/course/" ++ showNum (Courses.id c))];
                     Res.body := NoBody |}),
     {| store := {| users := users (store w);
                    courses := courses (store w) ++ [c];
                    userSeq := userSeq (store w);
                    courseSeq := Courses.id c |};
        events := events w ++ [SelectFrom TUsers; SelectFrom TCourses;
                               InsertInto TCourses] |})
  /\ ~ In (Courses.id c) (map Courses.id (courses (store w))).
Proof.
  intros Hm Hp Hauth Ht Ht' Hnul Hd Hd' Hn Hsafe Htime Hmat Hid Hcr Hfk Hnew
    Hrange c.
  assert (Hfresh : member (Courses.id c) (map Courses.id (courses (store w)))
                   = false) by apply autoKey_fresh.
  split.
  - rewrite (course_created env r w u t c); try assumption.
    + unfold Course.insert. do 3 f_equal.
      cbn [c posted Courses.id]. unfold autoKey. lia.
    + unfold allFailures, courseChains, failures. simpl.
      rewrite Ht, Hd. by rewrite !nonempty_truthy.
    + by apply hasNul_trim.
    + by apply title_is_new.
    + unfold Course.draft.
      rewrite Hn, Ht, Hd, Htime, Hmat, Hid, Hcr, !nullableText_text.
      simpl. rewrite Hsafe. reflexivity.
    + unfold Course.violation.
      cbn [c posted Courses.id Courses.userId] in Hfresh |- *.
      rewrite (safe_key _ Hrange). cbn [negb]. rewrite Hfresh.
      destruct foreignKeys eqn:Hflag; [|reflexivity].
      unfold Course.userExists, member.
      replace (existsb _ _) with true; [reflexivity|].
      symmetry. apply existsb_exists. exists n.
      split; [by apply Hfk|apply Z.eqb_refl].
  - intros Hin. unfold member in Hfresh.
    apply not_true_iff_false in Hfresh. apply Hfresh.
    apply existsb_exists. eexists. split; [exact Hin|apply Z.eqb_refl].
Qed.

(** X11. The owner of a new course is never defaulted to the authenticated
    user: an authenticated [POST /courses] with a valid body and a new
    title but no [userId], or [null] as [userId], is answered 500 with the
    validation error of the model, or, when the title holds U+0000, with
    the error of the database, whose look-up of the title has failed.
    Nothing is stored and no INSERT is sent. *)
Theorem course_needs_an_owner env r w u t :
  method r = POST ->
  path r = CoursesPath ->
  Authenticated (Req.incoming r) w u ->
  allFailures courseChains (body r) = [] ->
  body r !! "title" = Some (JStr t) ->
  (forall c, In c (courses (store w)) -> Courses.title c <> trim t) ->
  body r !! "userId" = None \/ body r !! "userId" = Some JNull ->
  router env r w
  = (Return (Some {| Res.status := 500;
                     Res.headers := [];
                     Res.body :=
                       ErrorBody (if hasNul (trim t)
                                  then SequelizeDatabaseError
                                  else SequelizeValidationError) |}),
     {| store := store w;
        events := events w ++ [SelectFrom TUsers; SelectFrom TCourses] |}).
Proof.
  intros Hm Hp Hauth Hvalid Ht Hnew Hn.
  unfold router. rewrite Hm, Hp. cbn [route].
  rewrite (course_route_run _ _ _ _ Hauth Hvalid). cbn [run].
  unfold bind at 1.
  unfold postCourses, asyncHandler, trimOf, Course.findOne, Course.create.
  cbn [Req.validationErrors Req.incoming Req.setCurrentUser].
  rewrite bool_decide_eq_true_2 by reflexivity. cbn [negb].
  change (Req.body (Req.setCurrentUser (Req.incoming r) u)) with (body r).
  rewrite Ht. monad.
  destruct (hasNul (trim t)).
  { monad. rewrite <- !app_assoc. reflexivity. }
  monad. rewrite (title_is_new _ _ Hnew). monad.
  assert (Hdraft : Course.draft env (store w) (body r) = None).
  { unfold Course.draft. destruct Hn as [-> | ->]; reflexivity. }
  rewrite Hdraft. monad. rewrite <- !app_assoc. reflexivity.
Qed.

Lemma lookup_appended k (table : list Courses.row) c :
  Courses.id c = k ->
  ~ In k (map Courses.id table) ->
  Course.lookup (Some k) (table ++ [c]) = Some c.
Proof.
  intros Hk Hfree. unfold Course.lookup.
  induction table as [|x table IH]; simpl.
  - by rewrite Hk, Z.eqb_refl.
  - destruct (Courses.id x =? k)%Z eqn:Hx.
    + apply Z.eqb_eq in Hx. destruct Hfree. left. exact Hx.
    + apply IH. intros Hin. apply Hfree. right. exact Hin.
Qed.

(** X12. What [POST /courses] creates, [GET /courses/:id] returns: after
    a creation with the row [c], whose title holds no U+0000, a [GET]
    whose parameter reads as the key of [c] is answered 200 with [c], all
    its columns. The key of [c] is the next of the sequence when the body
    gave no key or a falsy one. *)
Theorem created_course_is_fetched env r w u t c env' r' id :
  method r = POST ->
  path r = CoursesPath ->
  Authenticated (Req.incoming r) w u ->
  allFailures courseChains (body r) = [] ->
  body r !! "title" = Some (JStr t) ->
  hasNul t = false ->
  (forall c', In c' (courses (store w)) -> Courses.title c' <> trim t) ->
  Course.draft env (store w) (body r) = Some c ->
  Course.violation (store w) c = None ->
  method r' = GET ->
  path r' = CoursePath id ->
  keyOfParam id = Some (Courses.id c) ->
  fst (router env' r' (snd (router env r w)))
  = Return (Some (Res.json 200 (courseJson c)))
  /\ (truthy (body r !! "id") = false ->
      Courses.id c = autoKey (map Courses.id (courses (store w)))
                       (courseSeq (store w))).
Proof.
  intros Hm Hp Hauth Hvalid Ht Hnul Hnew Hdraft Hok Hm' Hp' Hk.
  split.
  - rewrite (course_created env r w u t c); try assumption;
      [|by apply hasNul_trim|by apply title_is_new].
    cbn [snd]. unfold router. rewrite Hm', Hp'. cbn [route].
    rewrite getCourse_run. rewrite (keyOfParam_text _ _ Hk).
    cbn [fst store Course.insert courses]. rewrite Hk.
    rewrite (lookup_appended (Courses.id c)); [reflexivity..|].
    unfold Course.violation in Hok.
    destruct (negb _); [discriminate Hok|].
    destruct (member _ _) eqn:Hmem; [discriminate Hok|].
    intros Hin. unfold member in Hmem. apply not_true_iff_false in Hmem.
    apply Hmem. apply existsb_exists. eexists.
    split; [exact Hin|apply Z.eqb_refl].
  - intros Hfalsy. pose proof (draft_key _ _ _ _ Hdraft) as Hkey.
    unfold newKey in Hkey. rewrite Hfalsy in Hkey. by injection Hkey as <-.
Qed.

End Creating.

(** ** The router as a whole *)

Section Whole.
Context `{E : Externals}.

(** The middleware passes a request on only when it authenticates. *)
Lemma authenticateUser_decides req w :
  (exists res w', store w' = store w
                  /\ authenticateUser req w = (Return (Done res), w'))
  \/ (exists u w', Authenticated req w u
                   /\ store w' = store w
                   /\ authenticateUser req w
                      = (Return (Next (Req.setCurrentUser req u)), w')).
Proof.
  unfold authenticateUser, asyncHandler, User.findOne, Authenticated,
    userNamed. monad.
  destruct (Req.credentials req) as [c|]; cbn [store events].
  - destruct (hasNul (name c)) eqn:Hn; cbn.
    { left. eexists _, _. split; [|reflexivity]. reflexivity. }
    destruct (List.find _ _) as [u|] eqn:Hu.
    + destruct (compareSync _ _) eqn:Hp; cbn.
      * right. exists u. eexists. split; [by exists c|].
        split; [|reflexivity]. reflexivity.
      * left. eexists _, _. split; [|reflexivity]. reflexivity.
    + cbn. left. eexists _, _. split; [|reflexivity]. reflexivity.
  - cbn. left. eexists _, _. split; [|reflexivity]. reflexivity.
Qed.

Lemma run_decides rest req w :
  (exists res w', store w' = store w
                  /\ run (authenticateUser :: rest) req w
                     = (Return (Some res), w'))
  \/ (exists u w', Authenticated req w u
                   /\ store w' = store w
                   /\ run (authenticateUser :: rest) req w
                      = run rest (Req.setCurrentUser req u) w').
Proof.
  cbn [run]. unfold bind.
  destruct (authenticateUser_decides req w)
    as [(res & w' & Hs & ->)|(u & w' & Ha & Hs & ->)].
  - left. by exists res, w'.
  - right. by exists u, w'.
Qed.

Ltac answered := cases; simplify_eq/=; eexists; reflexivity.

Lemma getUsers_answers req u w :
  exists res,
    fst (run [getUsers] (Req.setCurrentUser req u) w) = Return (Some res).
Proof. cbn [run]. unfold getUsers. answered. Qed.

Lemma postUsers_answers env req w :
  exists res, fst (run [postUsers env] req w) = Return (Some res).
Proof.
  cbn [run]. unfold postUsers, asyncHandler, trimOf, bcryptHash,
    User.findOne, User.create. answered.
Qed.

Lemma postCourses_answers env req w :
  exists res, fst (run [postCourses env] req w) = Return (Some res).
Proof.
  cbn [run]. unfold postCourses, asyncHandler, trimOf, Course.findOne,
    Course.create. answered.
Qed.

Lemma putCourse_answers env id req w :
  exists res, fst (run [putCourse env id] req w) = Return (Some res).
Proof.
  cbn [run]. unfold putCourse, asyncHandler, Course.findByPk,
    currentUserId, Course.update. answered.
Qed.

Lemma deleteCourse_answers id req w :
  exists res, fst (run [deleteCourse id] req w) = Return (Some res).
Proof.
  cbn [run]. unfold deleteCourse, asyncHandler, Course.findByPk,
    currentUserId, Course.destroy. answered.
Qed.

(** X13. Every request on one of the seven routes is answered, and no
    exception leaves the router: what a handler throws has become a 500,
    and [GET /users], the one handler outside [asyncHandler], is only
    reached with a user attached. A request on any other method and path
    is passed on untouched. *)
Theorem every_route_answers env r w :
  (exists res, fst (router env r w) = Return (Some res))
  \/ (route env (method r) (path r) = None
      /\ router env r w = (Return None, w)).
Proof.
  unfold router.
  destruct (method r), (path r) as [| |id]; cbn [route];
    try (right; split; reflexivity); left;
    try match goal with
        | |- context [run (authenticateUser :: ?rest) ?req ?w] =>
            destruct (run_decides rest req w)
              as [(res & w' & _ & ->)|(u & w' & _ & _ & ->)];
            [eexists; reflexivity|]
        end;
    rewrite ?run_validate;
    first [ apply getUsers_answers | apply postUsers_answers
          | apply postCourses_answers | apply putCourse_answers
          | apply deleteCourse_answers
          | rewrite getCourses_run; eexists; reflexivity
          | rewrite getCourse_run; eexists; reflexivity ].
Qed.

(** X14. No request changes or removes a stored user: the users after a
    request are the users before it, followed by at most one new row, and
    only [POST /users] adds one. *)
Theorem users_are_only_added env r w :
  exists added,
    users (store (snd (router env r w))) = (users (store w) ++ added)%list
    /\ (length added <= 1)%nat
    /\ (added <> [] -> method r = POST /\ path r = UsersPath).
Proof.
  destruct (method r) eqn:Hm, (path r) as [| |id] eqn:Hp;
    try (exists []; rewrite app_nil_r;
         split; [|split; [simpl; lia|congruence]];
         apply other_routes_keep_users; rewrite Hm, Hp; intros;
         discriminate).
  unfold router. rewrite Hm, Hp. cbn [route]. rewrite run_validate.
  destruct (postUsers_users env
              (Req.addErrors (Req.incoming r)
                 (allFailures userChains (Req.body (Req.incoming r)))) w)
    as [->|(e & row & _ & _ & _ & ->)].
  - exists []. rewrite app_nil_r. split; [reflexivity|].
    split; [simpl; lia|congruence].
  - exists [row]. split; [reflexivity|]. split; [simpl; lia|]. auto.
Qed.

Lemma postUsers_courses env req w :
  courses (store (snd (run [postUsers env] req w))) = courses (store w).
Proof.
  cbn [run]. unfold postUsers, asyncHandler, trimOf, bcryptHash,
    User.findOne, User.create.
  cases; simplify_eq/=; reflexivity.
Qed.

(** X15. Only an authenticated request changes the courses: when the
    credentials of a request authenticate as no user (or it has none), the
    courses after it are the courses before it, on every route. *)
Theorem courses_change_only_when_authenticated env r w :
  (forall u, ~ Authenticated (Req.incoming r) w u) ->
  courses (store (snd (router env r w))) = courses (store w).
Proof.
  intros Hnone. unfold router.
  destruct (method r), (path r) as [| |id]; cbn [route];
    try reflexivity;
    try match goal with
        | |- context [run (authenticateUser :: ?rest) ?req ?w] =>
            destruct (run_decides rest req w)
              as [(res & w' & Hs & ->)|(u & w' & Ha & _)];
            [cbn [snd]; by rewrite Hs|by destruct (Hnone u)]
        end.
  - by rewrite getCourse_run.
  - rewrite run_validate. apply postUsers_courses.
Qed.

End Whole.

(** ** What a request does to the store *)

Section Transitions.
Context `{E : Externals}.

Lemma postUsers_step env req w :
  Transition env (store w) (store (snd (run [postUsers env] req w))).
Proof.
  cbn [run]. unfold postUsers, asyncHandler, trimOf, bcryptHash,
    User.findOne, User.create.
  cases; simplify_eq/=; try apply Unchanged. by apply UserAdded.
Qed.

Lemma postCourses_step env req w :
  Transition env (store w) (store (snd (run [postCourses env] req w))).
Proof.
  cbn [run]. unfold postCourses, asyncHandler, trimOf, Course.findOne,
    Course.create.
  cases; simplify_eq/=; try apply Unchanged. by apply CourseAdded.
Qed.

Lemma putCourse_step env id req w :
  Transition env (store w) (store (snd (run [putCourse env id] req w))).
Proof.
  cbn [run]. unfold putCourse, asyncHandler, Course.findByPk,
    currentUserId, Course.update.
  cases; simplify_eq/=; try apply Unchanged. by apply CourseRewritten.
Qed.

Lemma deleteCourse_step env id req w :
  Transition env (store w) (store (snd (run [deleteCourse id] req w))).
Proof.
  cbn [run]. unfold deleteCourse, asyncHandler, Course.findByPk,
    currentUserId, Course.destroy.
  cases; simplify_eq/=; try apply Unchanged. apply CoursesRemoved.
Qed.

Lemma getUsers_step env req w :
  Transition env (store w) (store (snd (run [getUsers] req w))).
Proof. cbn [run]. unfold getUsers. cases; apply Unchanged. Qed.

(** A request does at most one write. *)
Lemma router_step env r w :
  Transition env (store w) (store (snd (router env r w))).
Proof.
  unfold router.
  destruct (method r), (path r) as [| |id]; cbn [route];
    try apply Unchanged;
    try match goal with
        | |- context [run (authenticateUser :: ?rest) ?req ?w] =>
            destruct (run_guarded rest req w)
              as [(res & w' & Hs & _ & ->)|(u & w' & Hs & ->)];
            [cbn [snd]; rewrite Hs; apply Unchanged|rewrite <- Hs]
        end;
    rewrite ?run_validate;
    first [ apply getUsers_step | apply postUsers_step
          | apply postCourses_step | apply putCourse_step
          | apply deleteCourse_step
          | rewrite getCourse_run; apply Unchanged ].
Qed.

Lemma member_In k keys : member k keys = true <-> In k keys.
Proof.
  unfold member. rewrite existsb_exists. split.
  - intros (x & Hin & Hx). apply Z.eqb_eq in Hx. by subst x.
  - intros Hin. exists k. split; [exact Hin|apply Z.eqb_refl].
Qed.

Lemma NoDup_snoc (k : Z) (keys : list Z) :
  NoDup keys -> ~ In k keys -> NoDup (keys ++ [k]).
Proof.
  intros Hn Hk. apply NoDup_app. split; [exact Hn|].
  split; [|apply NoDup_singleton].
  intros x Hx Hx'. apply list_elem_of_singleton in Hx'. subst x.
  by apply Hk, list_elem_of_In.
Qed.

(** Rewriting the rows of one key keeps the keys apart, when the new key
    is the key of no other row. *)
Lemma rewritten_keys_unique (k : Z) (g : Courses.row -> Courses.row)
  (table : list Courses.row) :
  NoDup (map Courses.id table) ->
  (forall c c', In c table -> In c' table ->
                (Courses.id c =? k)%Z = true ->
                (Courses.id c' =? k)%Z = false ->
                Courses.id (g c) <> Courses.id c') ->
  NoDup (map Courses.id
           (map (fun c => if (Courses.id c =? k)%Z then g c else c) table)).
Proof.
  intros Hn Hfree. rewrite map_map.
  induction table as [|x table IH]; simpl; [constructor|].
  apply NoDup_cons_1_1 in Hn as Hx. apply NoDup_cons_1_2 in Hn as Hrest.
  apply NoDup_cons_2.
  - intros Hin. apply list_elem_of_In, in_map_iff in Hin.
    destruct Hin as (y & Hy & Hiny).
    destruct (Courses.id x =? k)%Z eqn:Hxk,
             (Courses.id y =? k)%Z eqn:Hyk.
    + apply Z.eqb_eq in Hxk, Hyk. apply Hx, list_elem_of_In, in_map_iff.
      exists y. split; [congruence|exact Hiny].
    + apply (Hfree x y); [by left|by right|assumption..|by symmetry].
    + apply (Hfree y x); [by right|by left|assumption..].
    + apply Hx, list_elem_of_In, in_map_iff. by exists y.
  - apply IH; [exact Hrest|].
    intros c c' Hc Hc'. apply Hfree; by right.
Qed.

Lemma step_keeps_keys env s s' :
  Transition env s s' -> KeysUnique s -> KeysUnique s'.
Proof.
  intros Hstep [Hu Hc]. destruct Hstep as [|row Hok|c Hok|key p Hclash _|key];
    unfold KeysUnique; cbn [users courses User.insert Course.insert].
  - by split.
  - split; [|exact Hc]. rewrite map_app. apply NoDup_snoc; [exact Hu|].
    unfold User.violation in Hok.
    destruct (negb _); [discriminate Hok|].
    destruct (member _ _) eqn:Hm; [discriminate Hok|].
    intros Hin. apply member_In in Hin. congruence.
  - split; [exact Hu|]. rewrite map_app. apply NoDup_snoc; [exact Hc|].
    unfold Course.violation in Hok.
    destruct (negb _); [discriminate Hok|].
    destruct (member _ _) eqn:Hm; [discriminate Hok|].
    intros Hin. apply member_In in Hin. congruence.
  - split; [exact Hu|]. destruct key as [k|].
    + cbn [Course.matches]. apply rewritten_keys_unique; [exact Hc|].
      intros c c' Hin Hin' Hk Hk'. unfold Course.keyClash in Hclash.
      cbn [Course.applyPatch Courses.id].
      destruct (Course.setId p) as [n|]; cbn [default].
      * apply andb_false_iff in Hclash. destruct Hclash as [Hno|Hfree].
        -- assert (existsb (Course.matches (Some k)) (courses s) = true)
             as Hyes by (apply existsb_exists; by exists c).
           congruence.
        -- intros Heq. apply not_true_iff_false in Hfree. apply Hfree.
           apply member_In, in_map_iff. exists c'.
           split; [by symmetry|]. apply filter_In.
           split; [exact Hin'|]. cbn [Course.matches]. by rewrite Hk'.
      * intros Heq. rewrite Heq in Hk. congruence.
    + cbn [Course.matches]. by rewrite map_id.
  - split; [exact Hu|].
    induction (courses s) as [|x table IH]; simpl; [constructor|].
    simpl in Hc. apply NoDup_cons_1_1 in Hc as Hx.
    apply NoDup_cons_1_2 in Hc as Hrest.
    destruct (negb (Course.matches key x)); [|by apply IH].
    simpl. apply NoDup_cons_2; [|by apply IH].
    intros Hin. apply Hx. apply list_elem_of_In, in_map_iff in Hin.
    destruct Hin as (y & Hy & Hiny). apply filter_In in Hiny.
    apply list_elem_of_In, in_map_iff. exists y. split; [exact Hy|tauto].
Qed.

Lemma step_keeps_owners env s s' :
  foreignKeys = true ->
  Transition env s s' -> OwnersExist s -> OwnersExist s'.
Proof.
  intros Hfk Hstep Hown.
  destruct Hstep as [|row Hok|c Hok|key p _ Hmissing|key];
    unfold OwnersExist; cbn [users courses User.insert Course.insert].
  - exact Hown.
  - intros c Hin. rewrite map_app. apply in_or_app. left. by apply Hown.
  - intros c' Hin. apply in_app_or in Hin. destruct Hin as [Hin|[<-|[]]].
    + by apply Hown.
    + unfold Course.violation in Hok.
      destruct (negb _); [discriminate Hok|].
      destruct (member _ _); [discriminate Hok|].
      rewrite Hfk in Hok. cbn [andb] in Hok.
      destruct (Course.userExists s (Courses.userId c)) eqn:Hex;
        [|discriminate Hok].
      by apply member_In.
  - intros c' Hin. apply in_map_iff in Hin.
    destruct Hin as (c & <- & Hin).
    destruct (Course.matches key c) eqn:Hmatch; [|by apply Hown].
    cbn [Course.applyPatch Courses.userId].
    unfold Course.ownerMissing in Hmissing.
    destruct (Course.setUserId p) as [n|]; cbn [default]; [|by apply Hown].
    rewrite Hfk in Hmissing. cbn [andb] in Hmissing.
    assert (existsb (Course.matches key) (courses s) = true) as Hyes
      by (apply existsb_exists; by exists c).
    rewrite Hyes in Hmissing. cbn [andb] in Hmissing.
    apply negb_false_iff in Hmissing. by apply member_In.
  - intros c Hin. apply filter_In in Hin. apply Hown. tauto.
Qed.

(** X16. Primary keys stay unique: when no two users and no two courses
    share a key, the same holds after any sequence of requests, whatever
    keys their bodies supply. *)
Theorem keys_stay_unique requests w :
  KeysUnique (store w) ->
  KeysUnique (store (serveAll requests w)).
Proof.
  revert w. induction requests as [|[env r] rest IH]; intros w Hinv;
    cbn [serveAll]; [exact Hinv|].
  apply IH. eapply step_keeps_keys; [apply router_step|exact Hinv].
Qed.

(** X17. Where the database enforces the foreign key, the owner of every
    course is a stored user after any sequence of requests, when it was so
    before: no creation and no update stores a [userId] that is not the key
    of a user, and no user is ever removed. *)
Theorem owners_always_exist requests w :
  foreignKeys = true ->
  OwnersExist (store w) ->
  OwnersExist (store (serveAll requests w)).
Proof.
  intros Hfk. revert w.
  induction requests as [|[env r] rest IH]; intros w Hinv;
    cbn [serveAll]; [exact Hinv|].
  apply IH. eapply step_keeps_owners; [exact Hfk|apply router_step|exact Hinv].
Qed.

End Transitions.

(** ** What validation reports *)

Section Messages.
Context `{E : Externals}.

(** X18. The messages [POST /users] reports are read off the body alone,
    in this order: one for each of [firstName], [lastName] and [password]
    that is missing or falsy (the empty string, 0, [false], [null]); for
    [emailAddress], [Invalid value] when it is missing or falsy, the
    message given to [withMessage] belonging to [isEmail] only, and then
    its own message when its string form is no email address. A body
    passes exactly when the four fields are truthy and the address is in
    email syntax. *)
Theorem user_body_messages (b : gmap string JsVal) :
  map msg (allFailures userChains b)
  = (when (negb (truthy (b !! "firstName"))) (provide "firstName")
     ++ when (negb (truthy (b !! "lastName"))) (provide "lastName")
     ++ when (negb (truthy (b !! "password"))) (provide "password")
     ++ when (negb (truthy (b !! "emailAddress"))) "Invalid value"
     ++ when (negb (isEmail (toString (b !! "emailAddress"))))
          (provide "emailAddress"))%list
  /\ (allFailures userChains b = []
      <-> truthy (b !! "firstName") = true
          /\ truthy (b !! "lastName") = true
          /\ truthy (b !! "password") = true
          /\ truthy (b !! "emailAddress") = true
          /\ isEmail (toString (b !! "emailAddress")) = true).
Proof.
  unfold allFailures, userChains, failures, when. simpl.
  destruct (truthy (b !! "firstName")), (truthy (b !! "lastName")),
    (truthy (b !! "password")), (truthy (b !! "emailAddress")),
    (isEmail (toString (b !! "emailAddress")));
    simpl; (split; [reflexivity|]); split;
    solve [ discriminate | tauto | intros (? & ? & ? & ? & ?); discriminate ].
Qed.

(** X19. The messages [POST /courses] and [PUT /courses/:id] report: one
    for [title] and then one for [description], each when the field is
    missing or falsy. A body passes exactly when both are truthy, strings
    or not. *)
Theorem course_body_messages (b : gmap string JsVal) :
  map msg (allFailures courseChains b)
  = (when (negb (truthy (b !! "title"))) (provide "title")
     ++ when (negb (truthy (b !! "description"))) (provide "description"))%list
  /\ (allFailures courseChains b = []
      <-> truthy (b !! "title") = true
          /\ truthy (b !! "description") = true).
Proof.
  unfold allFailures, courseChains, failures, when. simpl.
  destruct (truthy (b !! "title")), (truthy (b !! "description"));
    simpl; (split; [reflexivity|]); split;
    solve [ discriminate | tauto | intros (? & ?); discriminate ].
Qed.

End Messages.

(** ** Signing up, then in *)

Section SigningIn.
Context `{E : Externals}.


End SigningIn.

(** ** Refusals leave the store alone *)

Section Refusals.
Context `{E : Externals}.

Ltac refused :=
  cases; simplify_eq/=; intros res Hres H201 H204; simplify_eq/=;
  try reflexivity; try (by destruct H201); try (by destruct H204).

Lemma getUsers_refusal req w :
  forall res,
    fst (run [getUsers] req w) = Return (Some res) ->
    Res.status res <> 201 -> Res.status res <> 204 ->
    store (snd (run [getUsers] req w)) = store w.
Proof. cbn [run]. unfold getUsers. refused. Qed.

Lemma postUsers_refusal env req w :
  forall res,
    fst (run [postUsers env] req w) = Return (Some res) ->
    Res.status res <> 201 -> Res.status res <> 204 ->
    store (snd (run [postUsers env] req w)) = store w.
Proof.
  cbn [run]. unfold postUsers, asyncHandler, trimOf, bcryptHash,
    User.findOne, User.create. refused.
Qed.

Lemma postCourses_refusal env req w :
  forall res,
    fst (run [postCourses env] req w) = Return (Some res) ->
    Res.status res <> 201 -> Res.status res <> 204 ->
    store (snd (run [postCourses env] req w)) = store w.
Proof.
  cbn [run]. unfold postCourses, asyncHandler, trimOf, Course.findOne,
    Course.create. refused.
Qed.

Lemma putCourse_refusal env id req w :
  forall res,
    fst (run [putCourse env id] req w) = Return (Some res) ->
    Res.status res <> 201 -> Res.status res <> 204 ->
    store (snd (run [putCourse env id] req w)) = store w.
Proof.
  cbn [run]. unfold putCourse, asyncHandler, Course.findByPk,
    currentUserId, Course.update. refused.
Qed.

Lemma deleteCourse_refusal id req w :
  forall res,
    fst (run [deleteCourse id] req w) = Return (Some res) ->
    Res.status res <> 201 -> Res.status res <> 204 ->
    store (snd (run [deleteCourse id] req w)) = store w.
Proof.
  cbn [run]. unfold deleteCourse, asyncHandler, Course.findByPk,
    currentUserId, Course.destroy. refused.
Qed.

(** X22. The store changes only under a 201 or a 204: whenever a request
    is answered with another status (200, 400, 401, 403, 500), the users,
    the courses and the sequences are exactly as before. In particular a
    500 never leaves a write half done. *)
Theorem other_answers_change_nothing env r w res :
  fst (router env r w) = Return (Some res) ->
  Res.status res <> 201 ->
  Res.status res <> 204 ->
  store (snd (router env r w)) = store w.
Proof.
  unfold router.
  destruct (method r), (path r) as [| |id]; cbn [route];
    try (intros; reflexivity);
    try match goal with
        | |- context [run (authenticateUser :: ?rest) ?req ?w] =>
            destruct (run_guarded rest req w)
              as [(res' & w' & Hs & _ & ->)|(u & w' & Hs & ->)];
            [intros; cbn [snd]; exact Hs|rewrite <- Hs]
        end;
    rewrite ?run_validate;
    first [ apply getUsers_refusal | apply postUsers_refusal
          | apply postCourses_refusal | apply putCourse_refusal
          | apply deleteCourse_refusal
          | rewrite getCourse_run; intros; reflexivity ].
Qed.

End Refusals.

(** ** What a sign-up reads *)

Section SignUpReads.
Context `{E : Externals}.

(** X23. [POST /users] reads four fields of the body and nothing else of
    the request: two sign-ups that agree on [firstName], [lastName],
    [emailAddress] and [password] get the same answer and leave the same
    world, whatever their credentials and whatever else their bodies hold.
    A key, an owner or a timestamp sent along is ignored. *)
Theorem signup_reads_four_fields env r1 r2 w :
  method r1 = POST -> path r1 = UsersPath ->
  method r2 = POST -> path r2 = UsersPath ->
  body r1 !! "firstName" = body r2 !! "firstName" ->
  body r1 !! "lastName" = body r2 !! "lastName" ->
  body r1 !! "emailAddress" = body r2 !! "emailAddress" ->
  body r1 !! "password" = body r2 !! "password" ->
  router env r1 w = router env r2 w.
Proof.
  intros Hm1 Hp1 Hm2 Hp2 Hf Hl He Hpw.
  unfold router. rewrite Hm1, Hp1, Hm2, Hp2. cbn [route].
  rewrite !run_validate.
  change (Req.body (Req.incoming r1)) with (body r1).
  change (Req.body (Req.incoming r2)) with (body r2).
  assert (Herrs : allFailures userChains (body r1)
                  = allFailures userChains (body r2)).
  { unfold allFailures, userChains, failures. simpl.
    by rewrite Hf, Hl, He, Hpw. }
  rewrite Herrs. cbn [run]. unfold bind.
  unfold postUsers, asyncHandler.
  cbn [Req.validationErrors Req.addErrors Req.incoming app].
  change (Req.body (Req.addErrors (Req.incoming r1)
                      (allFailures userChains (body r2))))
    with (body r1).
  change (Req.body (Req.addErrors (Req.incoming r2)
                      (allFailures userChains (body r2))))
    with (body r2).
  by rewrite Hf, Hl, He, Hpw.
Qed.

End SignUpReads.

(** ** The further properties on the sample requests *)

(** Anyone lists the courses of the library: stored under the keys 1, 5
    and 3, they are listed under 1, 3 and 5. *)
Lemma library_courses_listed :
  map Courses.id (courses (store Sample.library)) = [1; 5; 3]%Z
  /\ fst (router (E := Sample.externals) Sample.env Sample.listCourses
            Sample.library)
     = Return (Some (Res.json 200
                       (JArr [JObj [("id", JNum 1); ("userId", JNum 1);
                                    ("title", JStr "Algebra");
                                    ("description",
                                     JStr "Groups and rings");
                                    ("estimatedTime", JStr "12 hours");
                                    ("materialsNeeded", JNull)];
                              JObj [("id", JNum 3); ("userId", JNum 2);
                                    ("title", JStr "Logic");
                                    ("description", JStr "Proofs");
                                    ("estimatedTime", JNull);
                                    ("materialsNeeded", JNull)];
                              JObj [("id", JNum 5); ("userId", JNum 1);
                                    ("title", JStr "Analysis");
                                    ("description", JStr "Limits");
                                    ("estimatedTime", JNull);
                                    ("materialsNeeded", JNull)]]))).
Proof.
  split; [reflexivity|].
  destruct (courses_are_listed (E := Sample.externals) Sample.env
              Sample.listCourses Sample.library eq_refl eq_refl)
    as (listed & Hrun & -> & _ & _).
  rewrite Hrun. reflexivity.
Defined.

(** There is no course 7: the answer is [null], with 200. *)
Lemma no_course_seven :
  fst (router (E := Sample.externals) Sample.env (Sample.readCourse "7")
         Sample.campus)
  = Return (Some (Res.json 200 JNull)).
Proof.
  rewrite (course_is_fetched_or_null (E := Sample.externals) Sample.env
             (Sample.readCourse "7") Sample.campus "7" eq_refl eq_refl).
  reflexivity.
Defined.

(** Joe asks twice who he is. *)
Lemma joe_asks_twice :
  fst (router (E := Sample.externals) Sample.env Sample.whoami
         (snd (router (E := Sample.externals) Sample.env Sample.whoami
                 Sample.campus)))
  = fst (router (E := Sample.externals) Sample.env Sample.whoami
           Sample.campus).
Proof.
  apply (get_is_repeatable (E := Sample.externals) Sample.env Sample.env
           Sample.whoami Sample.campus eq_refl).
Defined.

(** Joe deletes a course that does not exist. *)
Lemma joe_deletes_nothing :
  router (E := Sample.externals) Sample.env (Sample.joeDeletes "7")
    Sample.campus
  = (Return (Some (Res.json 400
                     (JObj [("error",
                             JStr "Course with id: 7 not found.")]))),
     {| store := store Sample.campus;
        events := [SelectFrom TUsers; SelectFrom TCourses] |}).
Proof.
  apply (missing_course_is_a_400 (E := Sample.externals) Sample.env
           (Sample.joeDeletes "7") Sample.campus Sample.joe "7").
  - reflexivity.
  - by apply joe_authenticates.
  - reflexivity.
  - by left.
Defined.

(** Joe deletes his course: the campus has none left. *)
Lemma joe_deletes_algebra :
  courses (store (snd (router (E := Sample.externals) Sample.env
                         (Sample.joeDeletes "1") Sample.campus))) = []
  /\ fst (router (E := Sample.externals) Sample.env (Sample.readCourse "1")
            (snd (router (E := Sample.externals) Sample.env
                    (Sample.joeDeletes "1") Sample.campus)))
     = Return (Some (Res.json 200 JNull)).
Proof.
  destruct (owner_deletes_the_course (E := Sample.externals) Sample.env
              (Sample.joeDeletes "1") Sample.campus Sample.joe "1"
              Sample.algebra) as [Hrun Hget].
  - reflexivity.
  - reflexivity.
  - by apply joe_authenticates.
  - reflexivity.
  - reflexivity.
  - split; [by rewrite Hrun|].
    exact (Hget Sample.env (Sample.readCourse "1") eq_refl eq_refl).
Defined.

(** Joe rewrites his course and reads it back. *)
Lemma joe_reads_his_change :
  fst (router (E := Sample.externals) Sample.env (Sample.readCourse "1")
         (snd (router (E := Sample.externals) Sample.env Sample.retitle
                 Sample.campus)))
  = Return (Some (Res.json 200
                    (courseJson (E := Sample.externals)
                       (rewritten Sample.env "Algebra I" "Groups"
                          Sample.algebra)))).
Proof.
  destruct (owner_rewrites_the_course (E := Sample.externals) Sample.env
              Sample.retitle Sample.campus Sample.joe "1" Sample.algebra
              "Algebra I" "Groups") as [_ Hget];
    [..|exact (Hget Sample.env (Sample.readCourse "1") eq_refl eq_refl)];
    try reflexivity; try discriminate.
  by apply joe_authenticates.
Defined.

(** Joe gives his course the title of Sally's. *)
Lemma two_courses_one_title :
  map Courses.title
    (courses (store (snd (router (E := Sample.externals) Sample.env
                            Sample.retitleAsGeometry Sample.twoCourses))))
  = ["Geometry"; "Geometry"].
Proof.
  destruct (put_can_duplicate_a_title (E := Sample.externals) Sample.env
              Sample.retitleAsGeometry Sample.twoCourses Sample.joe "1"
              Sample.algebra "Geometry" "Groups" Sample.geometry)
    as [_ _]; [..|reflexivity]; try reflexivity; try discriminate.
  - by apply joe_authenticates.
  - right. by left.
Defined.

(** Joe posts a course under the title of his own, with spaces around. *)
Lemma spaced_algebra_is_refused :
  fst (router (E := Sample.externals) Sample.env
         (Sample.joePosts (Sample.course "  Algebra " "Again" 1))
         Sample.campus)
  = Return (Some (Res.json 400
                    (JObj [("error",
                            JStr ("Course with title "
                                  ++ quoted "  Algebra "
                                  ++ " already exists."))]))).
Proof.
  rewrite (taken_title_is_refused (E := Sample.externals) Sample.env
             (Sample.joePosts (Sample.course "  Algebra " "Again" 1))
             Sample.campus Sample.joe "  Algebra " Sample.algebra);
    try reflexivity.
  - by apply joe_authenticates.
  - by left.
Defined.


(** Joe posts a course whose title is the number 5. *)
Lemma numeric_title_is_a_500 :
  router (E := Sample.externals) Sample.env
    (Sample.joePosts (object [("title", Some (JNum 5));
                              ("description", Some (JStr "Five"));
                              ("userId", Some (JNum 1))]))
    Sample.campus
  = (Return (Some {| Res.status := 500; Res.headers := [];
                     Res.body := ErrorBody TypeError |}),
     {| store := store Sample.campus; events := [SelectFrom TUsers] |}).
Proof.
  apply (title_must_be_a_string (E := Sample.externals) Sample.env _
           Sample.campus Sample.joe (JNum 5));
    try reflexivity; try discriminate.
  by apply joe_authenticates.
Defined.

(** Joe's course for Sally gets the key 2. *)
Lemma topology_gets_key_two :
  fst (router (E := Sample.externals) Sample.env Sample.topologyForSally
         Sample.campus)
  = Return (Some (Res.created "/course/2"))
  /\ courses (store (snd (router (E := Sample.externals) Sample.env
                            Sample.topologyForSally Sample.campus)))
     = [Sample.algebra; Sample.topology].
Proof.
  destruct (plain_course_is_created (E := Sample.externals) Sample.env
              Sample.topologyForSally Sample.campus Sample.joe 2
              "Topology" "Open sets" None None) as [Hrun _];
    try reflexivity; try discriminate.
  - by apply joe_authenticates.
  - intros _. right. by left.
  - intros c [<-|[]]. discriminate.
  - rewrite Hrun. split; reflexivity.
Defined.

(** Joe posts a course without saying whose it is. *)
Lemma course_without_owner_is_a_500 :
  router (E := Sample.externals) Sample.env
    (Sample.joePosts (object [("title", Some (JStr "Topology"));
                              ("description", Some (JStr "Open sets"))]))
    Sample.campus
  = (Return (Some {| Res.status := 500; Res.headers := [];
                     Res.body := ErrorBody SequelizeValidationError |}),
     {| store := store Sample.campus;
        events := [SelectFrom TUsers; SelectFrom TCourses] |}).
Proof.
  apply (course_needs_an_owner (E := Sample.externals) Sample.env _
           Sample.campus Sample.joe "Topology"); try reflexivity.
  - by apply joe_authenticates.
  - intros c [<-|[]]. discriminate.
  - by left.
Defined.

(** The course Joe created with 0 as its key is stored under the next
    key of the sequence, 2, and read back under it. *)
Lemma topology_is_read_back :
  fst (router (E := Sample.externals) Sample.env (Sample.readCourse "2")
         (snd (router (E := Sample.externals) Sample.env
                 Sample.topologyUnderZero Sample.campus)))
  = Return (Some (Res.json 200
                    (courseJson (E := Sample.externals) Sample.topology)))
  /\ Courses.id Sample.topology = 2%Z.
Proof.
  destruct (created_course_is_fetched (E := Sample.externals) Sample.env
              Sample.topologyUnderZero Sample.campus Sample.joe "Topology"
              Sample.topology Sample.env (Sample.readCourse "2") "2")
    as [Hget _]; [..|split; [exact Hget|reflexivity]]; try reflexivity.
  - by apply joe_authenticates.
  - intros c [<-|[]]. discriminate.
Defined.

(** Without credentials the course of Joe stays. *)
Lemma anonymous_delete_changes_nothing :
  courses (store (snd (router (E := Sample.externals) Sample.env
                         (Sample.anyoneDeletes "1") Sample.campus)))
  = [Sample.algebra].
Proof.
  apply (courses_change_only_when_authenticated (E := Sample.externals)
           Sample.env (Sample.anyoneDeletes "1") Sample.campus).
  intros u (c & Hc & _). discriminate Hc.
Defined.

Lemma campus_keys_unique : KeysUnique (store Sample.campus).
Proof.
  split; simpl;
    repeat (apply NoDup_cons_2;
            [rewrite list_elem_of_In; simpl; intuition discriminate|]);
    apply NoDup_nil_2.
Qed.

(** Joe's course for Sally, twice: the second is refused, keys stay apart. *)
Lemma keys_unique_after_two_posts :
  KeysUnique
    (store (serveAll (E := Sample.externals)
              [(Sample.env, Sample.topologyForSally);
               (Sample.env, Sample.topologyForSally)] Sample.campus)).
Proof.
  apply (keys_stay_unique (E := Sample.externals)).
  exact campus_keys_unique.
Defined.

(** After Joe hands his course over, its owner is still a user. *)
Lemma owners_exist_after_hand_over :
  OwnersExist
    (store (serveAll (E := Sample.externals)
              [(Sample.env, Sample.handOver)] Sample.campus)).
Proof.
  apply (owners_always_exist (E := Sample.externals)).
  - reflexivity.
  - intros c [<-|[]]. by left.
Defined.


(** Joe's blank course is answered 400: the store is as it was. *)
Lemma blank_course_stores_nothing :
  store (snd (router (E := Sample.externals) Sample.env Sample.blank
                Sample.campus))
  = store Sample.campus.
Proof.
  eapply (other_answers_change_nothing (E := Sample.externals) Sample.env
            Sample.blank Sample.campus).
  - reflexivity.
  - discriminate.
  - discriminate.
Defined.

(** Ada signs up with a key of her choice: it is ignored. *)
Lemma chosen_key_is_ignored :
  router (E := Sample.externals) Sample.env Sample.newcomerWithKey
    Sample.campus
  = router (E := Sample.externals) Sample.env Sample.newcomer Sample.campus.
Proof.
  apply (signup_reads_four_fields (E := Sample.externals) Sample.env
           Sample.newcomerWithKey Sample.newcomer Sample.campus);
    reflexivity.
Defined.
